(** * Item-based movie recommender: rating matrix, cosine similarity, top-N query

    Shallow embedding of [movie_recommender.py] and [movie_recommender_app.py].
    Both scripts build a title-by-title cosine-similarity table from rating
    observations ([load_data]) and answer "movies most similar to this one"
    queries against it ([recommend_movie]).

    Numbers are IEEE-754 binary64 values (primitive floats), as in the
    numpy arrays the scripts manipulate; user and movie identifiers are
    integers, titles are byte strings (the files are decoded as latin-1, so
    code-point order is byte order).  The pandas and scikit-learn calls of
    the scripts are rendered by functions of the same names that follow the
    libraries' behaviour on the arguments the scripts pass; reading the two
    files is input, given as [Files]. *)

From Stdlib Require Import ZArith String Ascii Bool Lia.
From Stdlib Require Import List.
From Stdlib Require Import Permutation Sorted.
From Stdlib Require Import Floats.
Import ListNotations.

Set Implicit Arguments.

(** ** Python outcomes *)

Module Py.

(** The exceptions the two scripts can meet. *)
Inductive exn : Set :=
| KeyError
| ValueError
| FileNotFoundError.

Inductive result (A : Type) : Type :=
| Ok (a : A)
| Raise (e : exn).

Arguments Ok {A} a.
Arguments Raise {A} e.

Definition bind {A B : Type} (r : result A) (k : A -> result B) : result B :=
  match r with
  | Ok a => k a
  | Raise e => Raise e
  end.

(** Python slice [l[start:stop]] for a non-negative [start] and any [stop]:
    a negative [stop] counts from the end, and both ends are clamped. *)
Definition slice {A : Type} (start : nat) (stop : Z) (l : list A) : list A :=
  let len := Z.of_nat (length l) in
  let stop' := if (stop <? 0)%Z then Z.max 0 (len + stop) else Z.min stop len in
  skipn start (firstn (Z.to_nat stop') l).

End Py.

Export Py (Ok, Raise).

Notation "x <- r ;; k" := (Py.bind r (fun x => k))
  (at level 61, r at next level, right associativity).

(** ** Floating-point helpers *)

Module F.

Local Open Scope float_scope.

Definition is_nan (x : float) : bool := PrimFloat.is_nan x.

Definition is_finite (x : float) : bool := PrimFloat.is_finite x.

(** [x == 0.0]: true for both signed zeros. *)
Definition is_zero (x : float) : bool := (x =? 0).

Definition of_nat (n : nat) : float :=
  PrimFloat.of_uint63 (Uint63.of_Z (Z.of_nat n)).

(** [np.finfo(np.float64).eps], i.e. 2^-52. *)
Definition eps : float := Eval cbv in (Z.ldexp 1 (-52)%Z).

(** Dot product of two vectors.  The order in which the products are
    summed is the library's business; here they are accumulated left to
    right from 0, each product and each sum rounded on its own.  A BLAS
    kernel may sum in another order or fuse the multiplication into the
    addition, so the last bit of a score can differ from the one computed
    here: the general theorems below use only what holds for any such
    kernel (both orders of a pair give the same sum, a sum of zeros is a
    zero), and the tables of [Runs] are the tables of this sum. *)
Definition dot (xs ys : list float) : float :=
  fold_left (fun acc p => acc + fst p * snd p) (combine xs ys) 0.

End F.

(** ** Sorting helpers *)

Section InsertionSort.

Variable A : Type.
Variable leb : A -> A -> bool.

Fixpoint insert (x : A) (l : list A) : list A :=
  match l with
  | [] => [x]
  | y :: l' => if leb x y then x :: y :: l' else y :: insert x l'
  end.

(** A stable ascending sort: an element stays in front of the later
    elements it compares equal to. *)
Fixpoint isort (l : list A) : list A :=
  match l with
  | [] => []
  | x :: l' => insert x (isort l')
  end.

(** The last element of a list, if any. *)
Fixpoint last_opt (l : list A) : option A :=
  match l with
  | [] => None
  | [x] => Some x
  | _ :: l' => last_opt l'
  end.

End InsertionSort.

(** ** Axis labels *)

(** Labels of a pandas axis: values with a decidable equality. *)
Class Label (A : Type) : Type := {
  label_eqb : A -> A -> bool;
  label_eqb_spec : forall x y, reflect (x = y) (label_eqb x y)
}.

#[export] Instance Z_Label : Label Z :=
  {| label_eqb := Z.eqb; label_eqb_spec := Z.eqb_spec |}.

#[export] Instance string_Label : Label string :=
  {| label_eqb := String.eqb; label_eqb_spec := String.eqb_spec |}.

(** ** The pandas operations the scripts call *)

Module Pandas.

Local Open Scope float_scope.

(** One line of [u.data] ([names=['user_id','movie_id','rating','timestamp']]). *)
Record RatingRow : Set := {
  r_user_id : Z;
  r_movie_id : Z;
  r_rating : float;
  r_timestamp : Z
}.

(** One line of [u.item], columns 0 and 1 ([names=['movie_id','title']]). *)
Record MovieRow : Set := {
  m_movie_id : Z;
  m_title : string
}.

(** One row of the merged frame. *)
Record DataRow : Set := {
  user_id : Z;
  movie_id : Z;
  rating : float;
  timestamp : Z;
  title : string
}.

(** A two-dimensional labelled table, stored row by row. *)
Record DataFrame (I C : Type) : Type := {
  index : list I;
  columns : list C;
  values : list (list float)
}.

(** A labelled one-dimensional array. *)
Definition Series (L : Type) : Type := list (L * float).

(** [pd.merge(ratings, movies, on='movie_id')]: inner join, in the order of
    the left rows; a rating whose movie is unknown is dropped, a movie id
    listed several times multiplies the rating's rows. *)
Definition merge (ratings : list RatingRow) (movies : list MovieRow) : list DataRow :=
  flat_map
    (fun r =>
       map (fun m =>
              {| user_id := r_user_id r; movie_id := r_movie_id r;
                 rating := r_rating r; timestamp := r_timestamp r;
                 title := m_title m |})
           (filter (fun m => Z.eqb (r_movie_id r) (m_movie_id m)) movies))
    ratings.

(** *** Group-wise mean *)

(** Running state of one group in the grouped mean: compensated (Kahan)
    sum, its compensation term and the number of non-missing values. *)
Record MeanAcc : Set := {
  sumx : float;
  compensation : float;
  nobs : nat
}.

Definition mean_init : MeanAcc :=
  {| sumx := 0; compensation := 0; nobs := 0 |}.

Definition mean_step (a : MeanAcc) (val : float) : MeanAcc :=
  if F.is_nan val then a
  else
    let y := val - compensation a in
    let t := sumx a + y in
    let c := t - sumx a - y in
    {| sumx := t;
       compensation := if F.is_nan c then 0 else c;
       nobs := S (nobs a) |}.

Definition mean_out (a : MeanAcc) : float :=
  match nobs a with
  | O => nan
  | S _ => sumx a / F.of_nat (nobs a)
  end.

(** Mean of the non-missing values of one group, NaN when there is none. *)
Definition group_mean (vals : list float) : float :=
  mean_out (fold_left mean_step vals mean_init).

Definition key : Set := (Z * string)%type.

Definition key_eqb (k k' : key) : bool :=
  Z.eqb (fst k) (fst k') && String.eqb (snd k) (snd k').

Definition key_of (r : DataRow) : key := (user_id r, title r).

(** One step of the grouped pass: the row's value is folded into the state
    of the row's group, which is created on first sight. *)
Fixpoint upd (k : key) (val : float) (m : list (key * MeanAcc)) : list (key * MeanAcc) :=
  match m with
  | [] => [(k, mean_step mean_init val)]
  | (k', a) :: m' =>
      if key_eqb k k' then (k', mean_step a val) :: m'
      else (k', a) :: upd k val m'
  end.

Definition group_pass (data : list DataRow) : list (key * MeanAcc) :=
  fold_left (fun m r => upd (key_of r) (rating r) m) data [].

(** [data.groupby(['user_id','title'])['rating'].mean()]. *)
Definition groupby_mean (data : list DataRow) : list (key * float) :=
  map (fun p => (fst p, mean_out (snd p))) (group_pass data).

(** The ratings of one (user, title) pair, in row order. *)
Definition group_values (data : list DataRow) (k : key) : list float :=
  map rating (filter (fun r => key_eqb k (key_of r)) data).

Fixpoint lookup (V : Type) (k : key) (m : list (key * V)) : option V :=
  match m with
  | [] => None
  | (k', v) :: m' => if key_eqb k k' then Some v else lookup k m'
  end.

(** Labels of an axis: distinct, in ascending order. *)
Definition sort_unique (A : Type) (eq_dec : forall x y : A, {x = y} + {x <> y})
           (leb : A -> A -> bool) (l : list A) : list A :=
  isort leb (nodup eq_dec l).

(** The groups [pivot_table] keeps: those whose mean is not missing. *)
Definition agged (data : list DataRow) : list (key * float) :=
  filter (fun p => negb (F.is_nan (snd p))) (groupby_mean data).

(** [data.pivot_table(index='user_id', columns='title', values='rating')]:
    the cell of a (user, title) pair is the mean of its ratings
    ([aggfunc='mean']); groups whose mean is missing are dropped
    ([dropna=True]); the remaining users label the rows and the remaining
    titles the columns, both sorted; a pair without group is NaN. *)
Definition pivot_table (data : list DataRow) : DataFrame Z string :=
  let idx := sort_unique Z.eq_dec Z.leb (map (fun p => fst (fst p)) (agged data)) in
  let cols := sort_unique string_dec String.leb (map (fun p => snd (fst p)) (agged data)) in
  {| index := idx;
     columns := cols;
     values :=
       map (fun u =>
              map (fun t => match lookup (u, t) (agged data) with
                            | Some v => v
                            | None => nan
                            end) cols) idx |}.

(** [df.fillna(v)]. *)
Definition fillna (I C : Type) (v : float) (df : DataFrame I C) : DataFrame I C :=
  {| index := index df;
     columns := columns df;
     values := map (map (fun x => if F.is_nan x then v else x)) (values df) |}.

(** Column [j] of a row-major table. *)
Definition column (j : nat) (rows : list (list float)) : list float :=
  map (fun row => nth j row nan) rows.

(** [df.T]. *)
Definition T (I C : Type) (df : DataFrame I C) : DataFrame C I :=
  {| index := columns df;
     columns := index df;
     values := map (fun j => column j (values df)) (seq 0 (List.length (columns df))) |}.

(** [Index.get_loc]: position of the first occurrence of a label. *)
Fixpoint index_of (A : Type) `{Label A} (x : A) (l : list A) : option nat :=
  match l with
  | [] => None
  | y :: l' => if label_eqb x y then Some O
               else option_map S (index_of x l')
  end.

(** [name in df.columns]. *)
Definition contains (A : Type) `{Label A} (name : A) (l : list A) : bool :=
  match index_of name l with Some _ => true | None => false end.

(** [df[name]]: the column labelled [name] as a Series over the row labels;
    [KeyError] when no column has that label.  Column labels are taken to
    be distinct, as they are in every table [pivot_table] builds. *)
Definition getitem (I C : Type) `{Label C} (df : DataFrame I C) (name : C)
  : Py.result (Series I) :=
  match index_of name (columns df) with
  | None => Raise Py.KeyError
  | Some j => Ok (combine (index df) (column j (values df)))
  end.

(** [df.at[r, c]] where both labels exist. *)
Definition at_ (I C : Type) `{Label I} `{Label C} (df : DataFrame I C) (r : I) (c : C)
  : option float :=
  match index_of r (index df), index_of c (columns df) with
  | Some i, Some j =>
      match nth_error (values df) i with
      | Some row => nth_error row j
      | None => None
      end
  | _, _ => None
  end.

(** [s.sort_values(ascending=...)] as pandas orders it with a stable
    sorting kernel: missing values go last; for a descending sort the
    non-missing entries are reversed, sorted ascending and reversed again,
    so that equal values keep their original relative order. *)
Definition sort_values (L : Type) (ascending : bool) (s : Series L) : Series L :=
  let non_nans := filter (fun p => negb (F.is_nan (snd p))) s in
  let nans := filter (fun p => F.is_nan (snd p)) s in
  let by_value := fun p q : L * float => snd p <=? snd q in
  (if ascending then isort by_value non_nans
   else rev (isort by_value (rev non_nans))) ++ nans.

Arguments sort_values {L} ascending s.

(** [s.iloc[start:stop]]. *)
Definition iloc (L : Type) (start : nat) (stop : Z) (s : Series L) : Series L :=
  Py.slice start stop s.

(** [s.index.tolist()]. *)
Definition index_tolist (L : Type) (s : Series L) : list L := map fst s.

End Pandas.

(** ** scikit-learn's [cosine_similarity] *)

Module Sklearn.

Import Pandas.
Local Open Scope float_scope.

(** Input validation ([check_pairwise_arrays], hence [check_array] with
    its defaults): every entry finite, at least one sample (row) and one
    feature (column); otherwise [ValueError]. *)
Definition check_array (I C : Type) (X : DataFrame I C) : Py.result (list (list float)) :=
  if negb (forallb (forallb F.is_finite) (values X)) then Raise Py.ValueError
  else if Nat.ltb (List.length (index X)) 1 then Raise Py.ValueError
  else if Nat.ltb (List.length (columns X)) 1 then Raise Py.ValueError
  else Ok (values X).

(** Euclidean norm of a row. *)
Definition row_norm (row : list float) : float := sqrt (F.dot row row).

(** The zero-norm guard of [normalize] ([_handle_zeros_in_scale]): a norm
    below [10 * eps] is replaced by 1, so a null row is divided by 1 and
    stays null. *)
Definition handle_zeros_in_scale (scale : float) : float :=
  if scale <? 10 * F.eps then 1 else scale.

Definition normalize_row (row : list float) : list float :=
  let n := handle_zeros_in_scale (row_norm row) in
  map (fun x => x / n) row.

(** [normalize(X)]: every row scaled to unit Euclidean norm. *)
Definition normalize (X : list (list float)) : list (list float) :=
  map normalize_row X.

(** [X_normalized @ X_normalized.T]. *)
Definition gram (Xn : list (list float)) : list (list float) :=
  map (fun a => map (fun b => F.dot a b) Xn) Xn.

(** [cosine_similarity(X)]: pairwise cosine similarity of the rows of X. *)
Definition cosine_similarity (I C : Type) (X : DataFrame I C)
  : Py.result (list (list float)) :=
  Xc <- check_array X ;;
  Ok (gram (normalize Xc)).

End Sklearn.

(** ** What the two scripts read *)

(** The parsed contents of [u.data] and [u.item], or the exception
    [pd.read_csv] raises for the file. *)
Record Files : Type := {
  u_data : Py.result (list Pandas.RatingRow);
  u_item : Py.result (list Pandas.MovieRow)
}.

(** The title-by-title similarity table both scripts keep in the global
    [movie_similarity_df]. *)
Definition SimilarityFrame : Type := Pandas.DataFrame string string.

(** The order [sort_values] gives to equal scores depends on the sorting
    kernel in use; the query functions therefore take the sort as a
    parameter, [Pandas.sort_values] being the instance with a stable kernel. *)
Definition SortValues : Type := bool -> Pandas.Series string -> Pandas.Series string.

(** ** movie_recommender.py *)

Module Recommender.

Import Pandas Sklearn.

Definition load_data (files : Files) : Py.result SimilarityFrame :=
  ratings <- u_data files ;;
  movies <- u_item files ;;
  let data := merge ratings movies in
  let user_movie_matrix := pivot_table data in
  let user_movie_matrix_filled := fillna 0%float user_movie_matrix in
  movie_similarity <- cosine_similarity (T user_movie_matrix_filled) ;;
  Ok {| index := columns user_movie_matrix;
        columns := columns user_movie_matrix;
        values := movie_similarity |}.

Section Query.

Variable sort_values : SortValues.
Variable movie_similarity_df : SimilarityFrame.

Definition recommend_movie (movie_name : string) (num_recommendations : Z)
  : Py.result (list string) :=
  col <- getitem movie_similarity_df movie_name ;;
  let similar_movies := sort_values false col in
  Ok (index_tolist (iloc 1 (num_recommendations + 1) similar_movies)).

End Query.

End Recommender.

(** ** movie_recommender_app.py *)

Module App.

Import Pandas Sklearn.

(** [load_data] returns the pair [(movie_similarity_df, data)], or
    [(None, None)], rendered here as [None], when a file is missing. *)
Definition load_data (files : Files)
  : Py.result (option (SimilarityFrame * list DataRow)) :=
  let body :=
    ratings <- u_data files ;;
    movies <- u_item files ;;
    let data := merge ratings movies in
    let user_movie_matrix := pivot_table data in
    let user_movie_matrix_filled := fillna 0%float user_movie_matrix in
    movie_similarity <- cosine_similarity (T user_movie_matrix_filled) ;;
    Ok (Some ({| index := columns user_movie_matrix;
                 columns := columns user_movie_matrix;
                 values := movie_similarity |}, data)) in
  match body with
  | Raise Py.FileNotFoundError => Ok None
  | r => r
  end.

(** The function returns a plain (empty) list on one path and a Series on
    the other. *)
Inductive recommendations : Type :=
| RList (l : list string)
| RSeries (s : Series string).

Section Query.

Variable sort_values : SortValues.
Variable movie_similarity_df : SimilarityFrame.

Definition recommend_movie (movie_name : string) (num_recommendations : Z)
  : Py.result recommendations :=
  if negb (contains movie_name (columns movie_similarity_df)) then Ok (RList [])
  else
    col <- getitem movie_similarity_df movie_name ;;
    let similar_movies := sort_values false col in
    Ok (RSeries (iloc 1 (num_recommendations + 1) similar_movies)).

End Query.

End App.

(** ** The page of movie_recommender.py *)

Module ScriptPage.

Import Pandas.

(** [movie_similarity_df.columns.tolist()]: the choices of the select box. *)
Definition movie_list (movie_similarity_df : SimilarityFrame) : list string :=
  columns movie_similarity_df.

(** The "Get Recommendations" button: the recommendations for the selected
    movie (five, the default), then [st.columns(5)] and one [info] box per
    pair of [zip(cols, recommendations)], given as (column position, title). *)
Definition get_recommendations (sort_values : SortValues)
  (movie_similarity_df : SimilarityFrame) (selected_movie : string)
  : Py.result (list (nat * string)) :=
  recommendations <-
    Recommender.recommend_movie sort_values movie_similarity_df selected_movie 5 ;;
  let cols := seq 0 5 in
  Ok (combine cols recommendations).

End ScriptPage.

(** ** The page of movie_recommender_app.py *)

Module AppPage.

Import Pandas.
Local Open Scope string_scope.

(** The three figures of the sidebar's "Dataset Info". *)
Record DatasetInfo : Set := {
  total_ratings : nat;
  unique_movies : nat;
  unique_users : nat
}.

(** [Series.nunique()]: the number of distinct values. *)
Definition nunique (A : Type) (eq_dec : forall x y : A, {x = y} + {x <> y})
  (l : list A) : nat :=
  List.length (nodup eq_dec l).

(** [len(movie_data)], [movie_data['title'].nunique()] and
    [movie_data['user_id'].nunique()]. *)
Definition dataset_info (movie_data : list DataRow) : DatasetInfo :=
  {| total_ratings := List.length movie_data;
     unique_movies := nunique string_dec (map title movie_data);
     unique_users := nunique Z.eq_dec (map user_id movie_data) |}.

Definition movie_list (movie_similarity_df : SimilarityFrame) : list string :=
  columns movie_similarity_df.

(** [l.index(x)]: position of the first occurrence, [ValueError] without. *)
Definition list_index (x : string) (l : list string) : Py.result nat :=
  match index_of x l with
  | Some i => Ok i
  | None => Raise Py.ValueError
  end.

(** The [index=] argument of the select box:
    [movie_list.index("Toy Story (1995)") if "Toy Story (1995)" in movie_list else 0]. *)
Definition default_index (movie_list : list string) : Py.result nat :=
  if contains "Toy Story (1995)" movie_list
  then list_index "Toy Story (1995)" movie_list
  else Ok O.

(** The option the select box shows first: the one at [index], none when
    there is no option. *)
Definition default_selection (movie_list : list string) : Py.result (option string) :=
  i <- default_index movie_list ;;
  Ok (nth_error movie_list i).

(** Python truth value of a string. *)
Definition truthy (s : string) : bool := negb (String.eqb s "").

(** [movie_data[movie_data['title'] == selected_movie]]. *)
Definition movie_stats (movie_data : list DataRow) (selected_movie : string)
  : list DataRow :=
  filter (fun d => String.eqb (title d) selected_movie) movie_data.

(** The "Number of Ratings" metric: [len(movie_stats)], shown when a movie is
    selected and [movie_stats] is not empty. *)
Definition rating_count (movie_data : list DataRow) (selected_movie : string)
  : option nat :=
  if truthy selected_movie then
    match movie_stats movie_data selected_movie with
    | [] => None
    | (_ :: _) as rows => Some (List.length rows)
    end
  else None.

(** [min(score * 100, 99)]: 99 when 99 is less than the product, else the
    product. *)
Definition similarity_percentage (score : float) : float :=
  let p := (score * 100)%float in
  if (99 <? p)%float then 99%float else p.

(** One card of the result grid: the column it is drawn in, the number on
    its badge, the title and the match percentage. *)
Record Card : Set := {
  card_column : nat;
  card_badge : nat;
  card_movie : string;
  card_match : float
}.

(** [for i, (movie, score) in enumerate(recommendations.items())], drawn in
    [cols[i % 2]] with badge [i+1]. *)
Definition cards (recommendations : Series string) : list Card :=
  map (fun ip =>
         {| card_column := Nat.modulo (fst ip) 2;
            card_badge := fst ip + 1;
            card_movie := fst (snd ip);
            card_match := similarity_percentage (snd (snd ip)) |})
      (combine (seq 0 (List.length recommendations)) recommendations).

(** What the button handler draws. *)
Inductive Page : Set :=
| Recommended (selected_movie : string) (grid : list Card)
| NoRecommendations
| SelectFirst.

(** How the button handler ends: a page, an exception of [recommend_movie],
    or the [AttributeError] of taking [.empty] of a list. *)
Inductive Outcome : Set :=
| Drawn (p : Page)
| Raised (e : Py.exn)
| AttributeError.

(** The "Get Recommendations" button. *)
Definition get_recommendations (sort_values : SortValues)
  (movie_similarity_df : SimilarityFrame) (selected_movie : string)
  (num_recommendations : Z) : Outcome :=
  if truthy selected_movie then
    match App.recommend_movie sort_values movie_similarity_df selected_movie
            num_recommendations with
    | Raise e => Raised e
    | Ok (App.RList _) => AttributeError
    | Ok (App.RSeries recommendations) =>
        match recommendations with
        | _ :: _ => Drawn (Recommended selected_movie (cards recommendations))
        | [] => Drawn NoRecommendations
        end
    end
  else Drawn SelectFirst.

End AppPage.

(** ** Sample data *)

Module Samples.

Import Pandas.
Local Open Scope Z_scope.
Local Open Scope string_scope.

Definition obs (u m : Z) (r : float) : RatingRow :=
  {| r_user_id := u; r_movie_id := m; r_rating := r; r_timestamp := 0 |}.

Definition item (m : Z) (t : string) : MovieRow :=
  {| m_movie_id := m; m_title := t |}.

Definition abc : list MovieRow := [item 1 "A"; item 2 "B"; item 3 "C"].

(** Three users, three items: U1 = {A:5, B:3, C:0}, U2 = {A:4, B:0, C:0},
    U3 = {A:0, B:0, C:5}, the zeros written out as ratings. *)
Definition three_by_three : Files :=
  {| u_data := Ok [obs 1 1 5; obs 1 2 3; obs 1 3 0;
                   obs 2 1 4; obs 2 2 0; obs 2 3 0;
                   obs 3 1 0; obs 3 2 0; obs 3 3 5];
     u_item := Ok abc |}.

(** The same ratings with the zero entries left unrated. *)
Definition three_by_three_sparse : Files :=
  {| u_data := Ok [obs 1 1 5; obs 1 2 3; obs 2 1 4; obs 3 3 5];
     u_item := Ok abc |}.

(** One user gave the same rating to two movies. *)
Definition twins : Files :=
  {| u_data := Ok [obs 1 1 5; obs 1 2 5];
     u_item := Ok [item 1 "A"; item 2 "B"] |}.


(** Movies 1 and 4 carry the same title; user 1 rated both, user 2 one. *)
Definition remake_ratings : list RatingRow :=
  [obs 1 1 5; obs 1 4 3; obs 2 4 4; obs 2 2 1].

Definition remake_movies : list MovieRow :=
  [item 1 "A"; item 2 "B"; item 4 "A"].


(** Movie B was rated 0 by every user who rated it. *)
Definition zero_rated_ratings : list RatingRow :=
  [obs 1 1 5; obs 1 2 0; obs 2 1 4; obs 2 2 0; obs 2 3 2].

Definition zero_rated : Files :=
  {| u_data := Ok zero_rated_ratings; u_item := Ok abc |}.

Definition no_ratings : Files :=
  {| u_data := Ok []; u_item := Ok abc |}.

(** The similarity table of [twins]: both movies have the same
    rating column, so all four scores are 1. *)
Definition twins_df : SimilarityFrame :=
  {| index := ["A"; "B"];
     columns := ["A"; "B"];
     values := [[1%float; 1%float]; [1%float; 1%float]] |}.

(** The similarity table of [three_by_three]. *)
Definition abc_df : SimilarityFrame :=
  {| index := ["A"; "B"; "C"];
     columns := ["A"; "B"; "C"];
     values := [[1%float; 0x1.8fce095e0c6d5p-1%float; 0%float];
                [0x1.8fce095e0c6d5p-1%float; 1%float; 0%float];
                [0%float; 0%float; 1%float]] |}.

End Samples.

Unset Implicit Arguments.

(** * Vocabulary of the statements *)

(** ** Sorting interface *)

(** [desc p q]: entry [q] may directly follow entry [p] in a Series sorted
    in descending order with the missing values last. *)
Definition desc (p q : string * float) : Prop :=
  F.is_nan (snd q) = true \/
  (F.is_nan (snd p) = false /\ (snd q <=? snd p)%float = true).

(** What every kernel behind [sort_values(ascending=False)] guarantees:
    the entries are kept and end up in non-increasing order, missing
    values last.  The order inside a run of equal values is left open. *)
Record Sorter : Type := {
  run : SortValues;
  run_perm : forall s, Permutation s (run false s);
  run_desc : forall s, Sorted desc (run false s)
}.

(** ** Similarity matrices and rating matrices *)

(** A similarity matrix over [k] titles: the same titles label rows and
    columns, none of them twice, and there are [k] rows of [k] scores. *)
Record similarity_matrix (df : SimilarityFrame) : Prop := {
  sm_axes : Pandas.index df = Pandas.columns df;
  sm_nodup : NoDup (Pandas.columns df);
  sm_rows : List.length (Pandas.values df) = List.length (Pandas.columns df);
  sm_cols : Forall (fun row => List.length row = List.length (Pandas.columns df))
                   (Pandas.values df)
}.

(** The rating matrix the scripts hand to [cosine_similarity]. *)
Definition rating_rows (ratings : list Pandas.RatingRow)
  (movies : list Pandas.MovieRow) : Pandas.DataFrame string Z :=
  Pandas.T (Pandas.fillna 0%float (Pandas.pivot_table (Pandas.merge ratings movies))).

(** A value the slider of the app can give to [num_recommendations]
    ([min_value=3], [max_value=10]). *)
Definition slider_value (n : Z) : Prop := (3 <= n <= 10)%Z.

(** The row of the merged frame made of a rating line and the movie entry
    with the same id. *)
Definition joined (r : Pandas.RatingRow) (m : Pandas.MovieRow) : Pandas.DataRow :=
  {| Pandas.user_id := Pandas.r_user_id r; Pandas.movie_id := Pandas.r_movie_id r;
     Pandas.rating := Pandas.r_rating r; Pandas.timestamp := Pandas.r_timestamp r;
     Pandas.title := Pandas.m_title m |}.

(** Column [t] of a rating matrix has only zero entries. *)
Definition zero_column (M : Pandas.DataFrame Z string) (t : string) : Prop :=
  exists j, Pandas.index_of t (Pandas.columns M) = Some j /\
            forallb F.is_zero (Pandas.column j (Pandas.values M)) = true.

(** ** Running state of the grouped mean *)

(** State of a group that may not have been created yet. *)
Definition acc_of (o : option Pandas.MeanAcc) : Pandas.MeanAcc :=
  match o with Some a => a | None => Pandas.mean_init end.

(** State of a group after its values have been folded in, if it has any. *)
Definition state_after (o : option Pandas.MeanAcc) (vals : list float)
  : option Pandas.MeanAcc :=
  match vals with
  | [] => o
  | _ :: _ => Some (fold_left Pandas.mean_step vals (acc_of o))
  end.

(** ** Classes of binary64 values *)

Module Binary64.

Local Open Scope Z_scope.

(** Exponent of the binary64 format for a number of binade [x]. *)
Definition fexp64 (x : Z) : Z := fexp prec emax x.

(** Zero or finite. *)
Definition fin (x : spec_float) : bool :=
  match x with
  | S754_zero _ | S754_finite _ _ _ => true
  | _ => false
  end.

(** Not NaN and not negative: [+0], a positive finite number or [+inf]. *)
Definition nonneg (x : spec_float) : bool :=
  match x with
  | S754_zero false | S754_finite false _ _ | S754_infinity false => true
  | _ => false
  end.

(** Binade of a finite number: width of the mantissa plus exponent. *)
Definition mag (x : spec_float) : Z :=
  match x with
  | S754_finite _ m e => Zpos (digits2_pos m) + e
  | _ => 0
  end.

(** A scale that passed the zero-norm guard: [+inf], or positive with an
    exponent of at least -101 (the exponent of [10 * eps]). *)
Definition scale_ok (n : spec_float) : bool :=
  match n with
  | S754_infinity false => true
  | S754_finite false _ e => -101 <=? e
  | _ => false
  end.

(** A zero of either sign. *)
Definition is_zero_sf (x : spec_float) : bool :=
  match x with S754_zero _ => true | _ => false end.




End Binary64.

(** ** The arithmetic mean *)


(** The rating line a row of the merged frame comes from. *)
Definition rating_of (d : Pandas.DataRow) : Pandas.RatingRow :=
  {| Pandas.r_user_id := Pandas.user_id d; Pandas.r_movie_id := Pandas.movie_id d;
     Pandas.r_rating := Pandas.rating d; Pandas.r_timestamp := Pandas.timestamp d |}.

(** * Properties *)

(** ** Lists *)

Section ListFacts.

Variable A : Type.

Lemma last_opt_snoc (l : list A) (a : A) : last_opt (l ++ [a]) = Some a.
Proof.
  induction l as [|x l IH]; [reflexivity|].
  simpl. destruct (l ++ [a]) eqn:E; [destruct l; discriminate|exact IH].
Qed.

Lemma Sorted_app (R : A -> A -> Prop) (l1 l2 : list A) :
  Sorted R l1 -> Sorted R l2 ->
  (forall x y, last_opt l1 = Some x -> hd_error l2 = Some y -> R x y) ->
  Sorted R (l1 ++ l2).
Proof.
  induction l1 as [|a l1 IH]; intros S1 S2 H; [exact S2|].
  inversion S1 as [|? ? S1' Hd]; subst. simpl. constructor.
  - apply IH; [assumption|assumption|].
    intros x y Hx Hy. apply H; [|assumption].
    simpl. destruct l1; [discriminate|exact Hx].
  - destruct l1 as [|b l1]; simpl.
    + destruct l2 as [|y l2]; constructor. apply H; reflexivity.
    + constructor. inversion Hd; assumption.
Qed.

Lemma Sorted_rev (R : A -> A -> Prop) (l : list A) :
  Sorted R l -> Sorted (fun x y => R y x) (rev l).
Proof.
  induction 1 as [|a l S IH Hd]; [constructor|].
  simpl. apply Sorted_app; [exact IH|repeat constructor|].
  intros x y Hx Hy. injection Hy as <-.
  destruct Hd as [|b l Hab]; [discriminate|].
  simpl in Hx. rewrite last_opt_snoc in Hx. now injection Hx as <-.
Qed.

Lemma Permutation_filter_split (f : A -> bool) (l : list A) :
  Permutation l (filter (fun x => negb (f x)) l ++ filter f l).
Proof.
  induction l as [|x l IH]; [constructor|].
  simpl. destruct (f x); simpl.
  - now apply Permutation_cons_app.
  - now constructor.
Qed.

Variable leb : A -> A -> bool.

Lemma insert_perm (x : A) (l : list A) : Permutation (x :: l) (insert leb x l).
Proof.
  induction l as [|y l IH]; simpl; [reflexivity|].
  destruct (leb x y); [reflexivity|].
  rewrite perm_swap. now constructor.
Qed.

Lemma isort_perm (l : list A) : Permutation l (isort leb l).
Proof.
  induction l as [|x l IH]; simpl; [constructor|].
  rewrite <- insert_perm. now constructor.
Qed.

Lemma insert_sorted (P : A -> Prop) (x : A) (l : list A) :
  (forall a b, P a -> P b -> leb a b = false -> leb b a = true) ->
  P x -> Forall P l ->
  Sorted (fun a b => leb a b = true) l ->
  Sorted (fun a b => leb a b = true) (insert leb x l).
Proof.
  intros tot Px Pl S. induction S as [|y l S IH Hd]; simpl.
  - repeat constructor.
  - inversion Pl as [|? ? Py Pl']; subst.
    destruct (leb x y) eqn:E.
    + repeat constructor; assumption.
    + constructor; [now apply IH|].
      destruct Hd as [|z l Hyz]; simpl.
      * constructor. now apply tot.
      * destruct (leb x z); constructor; [now apply tot|assumption].
Qed.

Lemma isort_sorted (P : A -> Prop) (l : list A) :
  (forall a b, P a -> P b -> leb a b = false -> leb b a = true) ->
  Forall P l ->
  Sorted (fun a b => leb a b = true) (isort leb l).
Proof.
  intros tot Pl. induction Pl as [|x l Px Pl IH]; simpl; [constructor|].
  apply insert_sorted with (P := P); try assumption.
  rewrite Forall_forall in *. intros a Ha. apply Pl.
  eapply Permutation_in; [symmetry; apply isort_perm|exact Ha].
Qed.

(** Lengths of Python slices that start at position 1. *)
Lemma slice_from_1_length (stop : Z) (l : list A) :
  (1 <= stop)%Z ->
  List.length (Py.slice 1 stop l)
  = Nat.min (Z.to_nat stop - 1) (List.length l - 1).
Proof.
  intros H. unfold Py.slice.
  destruct (stop <? 0)%Z eqn:E; [lia|].
  rewrite length_skipn, length_firstn. lia.
Qed.

End ListFacts.

(** ** Binary64 arithmetic *)

Module FloatFacts.

Local Open Scope float_scope.

Lemma is_nan_Prim2SF (x : float) : F.is_nan x = true <-> Prim2SF x = S754_nan.
Proof.
  unfold F.is_nan, Prim2SF. destruct (is_nan x); split; try reflexivity; try discriminate.
  destruct (is_zero x); [discriminate|].
  destruct (is_infinity x); [discriminate|].
  destruct (Z.frexp x) as [r e].
  destruct (shr_fexp prec emax _ _ _) as [m e'].
  destruct (shr_m m); discriminate.
Qed.

Lemma not_nan_Prim2SF (x : float) : F.is_nan x = false <-> Prim2SF x <> S754_nan.
Proof.
  rewrite <- is_nan_Prim2SF. destruct (F.is_nan x); split; congruence.
Qed.

Lemma SFcompare_antisym (x y : spec_float) :
  SFcompare y x = option_map CompOpp (SFcompare x y).
Proof.
  destruct x as [sx|sx| |sx mx ex], y as [sy|sy| |sy my ey];
    try destruct sx; try destruct sy; try reflexivity; simpl;
    rewrite (Z.compare_antisym ex ey); destruct (ex ?= ey)%Z; simpl; try reflexivity;
    pose proof (Pos.compare_cont_antisym mx my Eq) as H; simpl in H;
    rewrite H; reflexivity.
Qed.

Lemma SFcompare_not_nan (x y : spec_float) :
  x <> S754_nan -> y <> S754_nan -> exists c, SFcompare x y = Some c.
Proof.
  destruct x as [sx|sx| |sx mx ex], y as [sy|sy| |sy my ey];
    intros Hx Hy; try congruence; simpl; eauto.
Qed.

(** On non-NaN values [<=?] is total. *)
Lemma leb_total (x y : float) :
  F.is_nan x = false -> F.is_nan y = false ->
  (x <=? y) = false -> (y <=? x) = true.
Proof.
  rewrite !not_nan_Prim2SF, !leb_spec. intros Hx Hy.
  unfold SFleb. rewrite (SFcompare_antisym (Prim2SF x) (Prim2SF y)).
  destruct (SFcompare_not_nan _ _ Hx Hy) as [c ->].
  destruct c; simpl; congruence.
Qed.

Lemma SFmul_comm (x y : spec_float) : SF64mul x y = SF64mul y x.
Proof.
  unfold SF64mul.
  destruct x as [sx|sx| |sx mx ex], y as [sy|sy| |sy my ey]; simpl;
    try rewrite (xorb_comm sx sy); try reflexivity.
  now rewrite (Pos.mul_comm mx my), (Z.add_comm ex ey).
Qed.

Lemma mul_comm (x y : float) : x * y = y * x.
Proof.
  apply Prim2SF_inj. rewrite !mul_spec. apply SFmul_comm.
Qed.

Lemma dot_comm (xs ys : list float) : F.dot xs ys = F.dot ys xs.
Proof.
  unfold F.dot. generalize 0. revert ys.
  induction xs as [|x xs IH]; intros [|y ys] acc; simpl; try reflexivity.
  rewrite (mul_comm x y). apply IH.
Qed.

End FloatFacts.

(** ** Rounding in binary64

    Bounds on what the binary64 operations return, read off their
    specification: the sign of a rounded result, when rounding stays finite
    and when it overflows. *)

Module Rounding.

Import Binary64.
Local Open Scope Z_scope.

Lemma digits2_pos_log2 (p : positive) :
  Zpos (digits2_pos p) = Z.log2 (Zpos p) + 1.
Proof.
  assert (H : forall q, digits2_pos q = Pos.size q).
  { induction q as [q IH|q IH|]; simpl; now rewrite ?IH. }
  rewrite H. destruct p; simpl; lia.
Qed.

Lemma Zdigits2_nonneg (m : Z) : 0 <= m -> 0 <= Zdigits2 m.
Proof. destruct m; simpl; lia. Qed.

Lemma Zdigits2_log2 (m : Z) : 0 < m -> Zdigits2 m = Z.log2 m + 1.
Proof. destruct m; try lia. intros _. apply digits2_pos_log2. Qed.

Lemma Zdigits2_le (a b : Z) : 0 <= a <= b -> Zdigits2 a <= Zdigits2 b.
Proof.
  intros [Ha Hab]. destruct (Z.eq_dec a 0) as [->|Hne].
  - apply Zdigits2_nonneg. lia.
  - rewrite !Zdigits2_log2 by lia. apply Z.add_le_mono_r, Z.log2_le_mono. lia.
Qed.

Lemma Zdigits2_lt_pow2 (a k : Z) : 0 <= k -> 0 <= a < 2 ^ k -> Zdigits2 a <= k.
Proof.
  intros Hk [Ha Hak]. destruct (Z.eq_dec a 0) as [->|Hne]; [exact Hk|].
  rewrite Zdigits2_log2 by lia.
  assert (Z.log2 a < k) by (apply Z.log2_lt_pow2; lia). lia.
Qed.

Lemma Zdigits2_ge_pow2 (a k : Z) : 0 <= k -> 2 ^ k <= a -> k + 1 <= Zdigits2 a.
Proof.
  intros Hk Hak. assert (0 < 2 ^ k) by (apply Z.pow_pos_nonneg; lia).
  rewrite Zdigits2_log2 by lia.
  assert (k <= Z.log2 a) by (apply Z.log2_le_pow2; lia). lia.
Qed.

Lemma Zdigits2_bounds (a : Z) :
  0 < a -> 2 ^ (Zdigits2 a - 1) <= a < 2 ^ Zdigits2 a.
Proof.
  intros Ha. rewrite Zdigits2_log2 by assumption.
  replace (Z.log2 a + 1 - 1) with (Z.log2 a) by lia.
  replace (Z.log2 a + 1) with (Z.succ (Z.log2 a)) by lia.
  now apply Z.log2_spec.
Qed.

Lemma Zdigits2_succ (a : Z) : 0 <= a -> Zdigits2 (a + 1) <= Zdigits2 a + 1.
Proof.
  intros Ha. destruct (Z.eq_dec a 0) as [->|Hne]; [simpl; lia|].
  apply Zdigits2_lt_pow2; [pose proof (Zdigits2_nonneg a); lia|].
  pose proof (Zdigits2_bounds a ltac:(lia)) as [_ Hu].
  rewrite Z.pow_add_r by (pose proof (Zdigits2_nonneg a); lia). lia.
Qed.

(** *** Right shifts *)

Lemma shr_1_m (mrs : shr_record) :
  0 <= shr_m mrs ->
  0 <= shr_m (shr_1 mrs) /\
  Zdigits2 (shr_m (shr_1 mrs)) = Z.max 0 (Zdigits2 (shr_m mrs) - 1).
Proof.
  destruct mrs as [m r s]. cbn [shr_m].
  destruct m as [|[p|p|]|p]; cbn [shr_1 shr_m Zdigits2 digits2_pos];
    rewrite ?Pos2Z.inj_succ; lia.
Qed.

Lemma iter_shr_1 (p : positive) (mrs : shr_record) :
  0 <= shr_m mrs ->
  0 <= shr_m (iter_pos shr_1 p mrs) /\
  Zdigits2 (shr_m (iter_pos shr_1 p mrs)) = Z.max 0 (Zdigits2 (shr_m mrs) - Zpos p).
Proof.
  revert mrs. induction p as [p IH|p IH|]; intros mrs Hm; simpl iter_pos.
  - destruct (shr_1_m mrs Hm) as [H1 E1].
    destruct (IH _ H1) as [H2 E2]. destruct (IH _ H2) as [H3 E3].
    split; [exact H3|]. rewrite E3, E2, E1. lia.
  - destruct (IH _ Hm) as [H2 E2]. destruct (IH _ H2) as [H3 E3].
    split; [exact H3|]. rewrite E3, E2. lia.
  - destruct (shr_1_m mrs Hm) as [H1 E1]. split; [exact H1|]. rewrite E1. lia.
Qed.

Lemma shr_spec (mrs : shr_record) (e n : Z) :
  0 <= shr_m mrs ->
  0 <= shr_m (fst (shr mrs e n)) /\
  snd (shr mrs e n) = e + Z.max 0 n /\
  Zdigits2 (shr_m (fst (shr mrs e n))) = Z.max 0 (Zdigits2 (shr_m mrs) - Z.max 0 n).
Proof.
  intros Hm. pose proof (Zdigits2_nonneg _ Hm).
  destruct n as [|p|p]; cbn [shr fst snd]; try (split; [|split]; lia).
  destruct (iter_shr_1 p mrs Hm) as [H1 E1]. split; [exact H1|]. split; [lia|].
  rewrite E1. lia.
Qed.


(** *** Rounding to binary64 *)

Lemma fexp64_eq (x : Z) : fexp64 x = Z.max (x - 53) (-1074).
Proof. reflexivity. Qed.

Lemma shr_record_of_loc_m (m : Z) (l : location) : shr_m (shr_record_of_loc m l) = m.
Proof. now destruct l as [|[]]. Qed.

Lemma round_nearest_even_bounds (m : Z) (l : location) :
  m <= round_nearest_even m l <= m + 1.
Proof.
  destruct l as [|[]]; simpl; try lia. destruct (Z.even m); lia.
Qed.

(** The three outcomes of rounding a non-negative mantissa [mx] with
    exponent [ex]: [d1] is the width of the mantissa after the first
    alignment and rounding step. *)
Lemma binary_round_aux_cases (sx : bool) (mx ex : Z) (lx : location) :
  0 <= mx ->
  exists d1 : Z,
    let D := Zdigits2 mx + ex in
    let e' := Z.max ex (fexp64 D) in
    let d' := Z.max 0 (Zdigits2 mx - Z.max 0 (fexp64 D - ex)) in
    let e'' := Z.max e' (fexp64 (d1 + e')) in
    let d'' := Z.max 0 (d1 - Z.max 0 (fexp64 (d1 + e') - e')) in
    d' <= d1 <= d' + 1 /\
    ((binary_round_aux prec emax sx mx ex lx = S754_zero sx /\ d'' = 0) \/
     (exists m, binary_round_aux prec emax sx mx ex lx = S754_finite sx m e'' /\
                Zpos (digits2_pos m) = d'' /\ e'' <= 971) \/
     (binary_round_aux prec emax sx mx ex lx = S754_infinity sx /\
      0 < d'' /\ 971 < e'')).
Proof.
  intros Hm. unfold binary_round_aux, shr_fexp. fold (fexp64 (Zdigits2 mx + ex)).
  pose proof (shr_spec (shr_record_of_loc mx lx) ex (fexp64 (Zdigits2 mx + ex) - ex)) as S1.
  rewrite shr_record_of_loc_m in S1. specialize (S1 Hm).
  destruct (shr (shr_record_of_loc mx lx) ex (fexp64 (Zdigits2 mx + ex) - ex))
    as [mrs' e'] eqn:E1.
  cbn [fst snd] in S1. destruct S1 as (Hm' & He' & Hd').
  set (m1 := round_nearest_even (shr_m mrs') (loc_of_shr_record mrs')).
  pose proof (round_nearest_even_bounds (shr_m mrs') (loc_of_shr_record mrs')) as Hr.
  fold m1 in Hr.
  assert (Hm1 : 0 <= m1) by lia.
  fold (fexp64 (Zdigits2 m1 + e')).
  pose proof (shr_spec (shr_record_of_loc m1 loc_Exact) e' (fexp64 (Zdigits2 m1 + e') - e')) as S2.
  rewrite shr_record_of_loc_m in S2. specialize (S2 Hm1).
  destruct (shr (shr_record_of_loc m1 loc_Exact) e' (fexp64 (Zdigits2 m1 + e') - e'))
    as [mrs'' e''] eqn:E2.
  cbn [fst snd] in S2. destruct S2 as (Hm'' & He'' & Hd'').
  exists (Zdigits2 m1). cbv zeta.
  assert (Ee' : e' = Z.max ex (fexp64 (Zdigits2 mx + ex))) by lia.
  rewrite <- Ee'.
  assert (Ee'' : e'' = Z.max e' (fexp64 (Zdigits2 m1 + e'))) by lia.
  rewrite <- Ee''. rewrite <- Hd', <- Hd''.
  split.
  - pose proof (Zdigits2_le (shr_m mrs') m1 ltac:(lia)).
    pose proof (Zdigits2_le m1 (shr_m mrs' + 1) ltac:(lia)).
    pose proof (Zdigits2_succ (shr_m mrs') Hm'). lia.
  - destruct (shr_m mrs'') as [|m|m] eqn:Em.
    + left. split; reflexivity.
    + change (emax - prec) with 971. destruct (Z.leb_spec e'' 971).
      * right. left. exists m. split; [reflexivity|]. split; [reflexivity|assumption].
      * right. right. split; [reflexivity|]. split; [simpl; lia|assumption].
    + lia.
Qed.


Lemma binary_round_aux_sign (sx : bool) (mx ex : Z) (lx : location) :
  0 <= mx ->
  binary_round_aux prec emax sx mx ex lx = S754_zero sx \/
  (exists m e, binary_round_aux prec emax sx mx ex lx = S754_finite sx m e) \/
  binary_round_aux prec emax sx mx ex lx = S754_infinity sx.
Proof.
  intros Hm. destruct (binary_round_aux_cases sx mx ex lx Hm) as (d1 & _ & H).
  destruct H as [[H _]|[(m & H & _)|[H _]]]; eauto.
Qed.

Lemma binary_round_aux_nonneg (mx ex : Z) (lx : location) :
  0 <= mx -> nonneg (binary_round_aux prec emax false mx ex lx) = true.
Proof.
  intros Hm.
  destruct (binary_round_aux_sign false mx ex lx Hm) as [->|[(m & e & ->)| ->]];
    reflexivity.
Qed.

(** No overflow when the value is below 2^1023. *)
Lemma binary_round_aux_fin (sx : bool) (mx ex : Z) (lx : location) :
  0 <= mx -> ex <= 971 -> Zdigits2 mx + ex <= 1023 ->
  fin (binary_round_aux prec emax sx mx ex lx) = true.
Proof.
  intros Hm He HD. pose proof (Zdigits2_nonneg mx Hm) as Hd.
  destruct (binary_round_aux_cases sx mx ex lx Hm) as (d1 & Hd1 & H).
  cbv zeta in Hd1, H. rewrite !fexp64_eq in *.
  destruct H as [[-> _]|[(m & -> & _)|[_ [_ H]]]]; try reflexivity. lia.
Qed.

(** Overflow when the value is at least 2^1024. *)
Lemma binary_round_aux_overflow (sx : bool) (mx ex : Z) (lx : location) :
  0 < mx -> 1025 <= Zdigits2 mx + ex ->
  binary_round_aux prec emax sx mx ex lx = S754_infinity sx.
Proof.
  intros Hm HD.
  assert (Hd : 1 <= Zdigits2 mx) by (destruct mx; simpl in *; lia).
  destruct (binary_round_aux_cases sx mx ex lx ltac:(lia)) as (d1 & Hd1 & H).
  cbv zeta in Hd1, H. rewrite !fexp64_eq in *.
  destruct H as [[_ H]|[(m & _ & _ & H)|[-> _]]]; try reflexivity; lia.
Qed.


(** *** Squares, sums and square roots of non-negative numbers *)

Lemma SFmul_square_nonneg (x : spec_float) :
  fin x = true -> nonneg (SF64mul x x) = true.
Proof.
  destruct x as [[]|[]| |s m e]; try discriminate; try reflexivity. intros _.
  unfold SF64mul, SFmul. rewrite xorb_nilpotent.
  apply binary_round_aux_nonneg. lia.
Qed.

Lemma SFmul_square_overflow (s : bool) (m : positive) (e : Z) :
  513 <= mag (S754_finite s m e) ->
  SF64mul (S754_finite s m e) (S754_finite s m e) = S754_infinity false.
Proof.
  cbn [mag]. intros H. unfold SF64mul, SFmul. rewrite xorb_nilpotent.
  apply binary_round_aux_overflow; [lia|].
  pose proof (Zdigits2_bounds (Zpos m) ltac:(lia)) as [Hl _].
  cbn [Zdigits2] in Hl. set (d := Zpos (digits2_pos m)) in *.
  assert (Hd : 1 <= d) by (unfold d; lia).
  assert (Hsq : 2 ^ (2 * d - 2) <= Zpos (m * m)).
  { replace (2 * d - 2) with ((d - 1) + (d - 1)) by lia.
    rewrite Z.pow_add_r by lia. rewrite Pos2Z.inj_mul.
    assert (0 < 2 ^ (d - 1)) by (apply Z.pow_pos_nonneg; lia). nia. }
  pose proof (Zdigits2_ge_pow2 (Zpos (m * m)) (2 * d - 2) ltac:(lia) Hsq). lia.
Qed.

Lemma SFadd_nonneg (a b : spec_float) :
  nonneg a = true -> nonneg b = true -> nonneg (SF64add a b) = true.
Proof.
  destruct a as [[]|[]| |[] ma ea], b as [[]|[]| |[] mb eb];
    try discriminate; try reflexivity. intros _ _.
  unfold SF64add, SFadd, cond_Zopp, binary_normalize.
  destruct (shl_align ma ea (Z.min ea eb)) as [ma' ea'].
  destruct (shl_align mb eb (Z.min ea eb)) as [mb' eb'].
  cbn [fst Z.add]. unfold binary_round.
  destruct (shl_align _ _ _) as [mz ez].
  apply binary_round_aux_nonneg. lia.
Qed.

Lemma SFadd_inf_l (b : spec_float) :
  nonneg b = true -> SF64add (S754_infinity false) b = S754_infinity false.
Proof. destruct b as [[]|[]| |[] mb eb]; try discriminate; reflexivity. Qed.

Lemma SFadd_inf_r (a : spec_float) :
  nonneg a = true -> SF64add a (S754_infinity false) = S754_infinity false.
Proof. destruct a as [[]|[]| |[] ma ea]; try discriminate; reflexivity. Qed.

Lemma SFsqrt_nonneg (x : spec_float) :
  nonneg x = true -> nonneg (SF64sqrt x) = true.
Proof.
  destruct x as [[]|[]| |[] m e]; try discriminate; try reflexivity. intros _.
  unfold SF64sqrt, SFsqrt, SFsqrt_core_binary.
  match goal with |- context [Z.sqrtrem ?a] =>
    pose proof (Z.sqrtrem_sqrt a) as Hq; pose proof (Z.sqrt_nonneg a) as Hn;
    destruct (Z.sqrtrem a) as [q r] end.
  cbn [fst] in Hq. subst q.
  apply binary_round_aux_nonneg. exact Hn.
Qed.

(** *** Division by a scale *)

Lemma div_digits (a b da db : Z) :
  0 <= a < 2 ^ da -> 2 ^ (db - 1) <= b -> 0 <= da -> 1 <= db ->
  Zdigits2 (a / b) <= Z.max 0 (da - db + 1).
Proof.
  intros [Ha Hau] Hb Hda Hdb.
  assert (Hp : 0 < 2 ^ (db - 1)) by (apply Z.pow_pos_nonneg; lia).
  assert (Hq : 0 <= a / b) by (apply Z.div_pos; lia).
  assert (Hqb : b * (a / b) <= a) by (apply Z.mul_div_le; lia).
  destruct (Z.le_gt_cases (da - db + 1) 0) as [Hk|Hk].
  - assert (2 ^ da <= 2 ^ (db - 1)) by (apply Z.pow_le_mono_r; lia).
    rewrite Z.div_small by lia. simpl. lia.
  - apply Z.le_trans with (da - db + 1); [|lia].
    apply Zdigits2_lt_pow2; [lia|]. split; [exact Hq|].
    assert (E : 2 ^ da = 2 ^ (da - db + 1) * 2 ^ (db - 1)).
    { rewrite <- Z.pow_add_r by lia. f_equal. lia. }
    nia.
Qed.

Lemma SFdiv_core_binary_bounds (m1 : positive) (e1 : Z) (m2 : positive) (e2 : Z) :
  let d := Zpos (digits2_pos m1) + e1 - (Zpos (digits2_pos m2) + e2) in
  let r := SFdiv_core_binary prec emax (Zpos m1) e1 (Zpos m2) e2 in
  0 <= fst (fst r) /\
  snd (fst r) <= fexp64 d /\
  Zdigits2 (fst (fst r)) + snd (fst r) <= Z.max (snd (fst r)) (d + 1).
Proof.
  intros d r. unfold r, SFdiv_core_binary. cbn [Zdigits2].
  fold d. fold (fexp64 d).
  set (e' := Z.min (fexp64 d) (e1 - e2)).
  set (s := e1 - e2 - e').
  assert (Hs : 0 <= s) by (unfold s, e'; lia).
  set (m' := match s with Zpos _ => Z.shiftl (Zpos m1) s | Z0 => Zpos m1 | Zneg _ => 0 end).
  pose proof (Zdigits2_bounds (Zpos m1) ltac:(lia)) as [_ H1].
  pose proof (Zdigits2_bounds (Zpos m2) ltac:(lia)) as [H2 _].
  cbn [Zdigits2] in H1, H2.
  assert (Hm' : 0 <= m' < 2 ^ (Zpos (digits2_pos m1) + s)).
  { assert (E : m' = Zpos m1 * 2 ^ s).
    { unfold m'. destruct s as [|p|p] eqn:Es; [simpl; lia| |lia].
      now rewrite Z.shiftl_mul_pow2 by lia. }
    rewrite E, Z.pow_add_r by lia.
    assert (0 < 2 ^ s) by (apply Z.pow_pos_nonneg; lia). nia. }
  pose proof (div_digits m' (Zpos m2) (Zpos (digits2_pos m1) + s) (Zpos (digits2_pos m2))
                Hm' H2 ltac:(lia) ltac:(lia)) as Hq.
  unfold Z.div in Hq. destruct (Z.div_eucl m' (Zpos m2)) as [q rem] eqn:E.
  cbn [fst snd].
  assert (0 <= q).
  { pose proof (Z.div_pos m' (Zpos m2) ltac:(lia) ltac:(lia)) as Hp.
    unfold Z.div in Hp. now rewrite E in Hp. }
  unfold s in Hq. unfold e'. unfold e' in Hq. lia.
Qed.

Lemma SFdiv_fin (x n : spec_float) :
  fin x = true -> mag x <= 512 -> scale_ok n = true -> fin (SF64div x n) = true.
Proof.
  destruct x as [sx|sx| |sx mx ex]; try discriminate;
    destruct n as [sn|[]| |[] mn en]; try discriminate; try reflexivity.
  cbn [mag scale_ok]. intros _ Hx Hn. apply Z.leb_le in Hn.
  unfold SF64div, SFdiv.
  pose proof (SFdiv_core_binary_bounds mx ex mn en) as H. cbv zeta in H.
  destruct (SFdiv_core_binary prec emax (Zpos mx) ex (Zpos mn) en) as [[q e'] l].
  cbn [fst snd] in H. destruct H as (Hq & He & HD).
  rewrite fexp64_eq in He.
  assert (1 <= Zpos (digits2_pos mn)) by lia.
  apply binary_round_aux_fin; lia.
Qed.

(** *** Whole numbers

    Sums and differences of whole numbers below 2^53 are exact: the result
    of the operation is the binary64 number of the exact sum or
    difference. *)










Lemma digits2_pos_pos (n : positive) : 1 <= Zpos (digits2_pos n).
Proof. lia. Qed.







End Rounding.

(** ** The stable sort meets the sorting interface *)

Lemma sort_values_perm (s : Pandas.Series string) :
  Permutation s (Pandas.sort_values false s).
Proof.
  unfold Pandas.sort_values.
  rewrite (Permutation_filter_split _ (fun p => F.is_nan (snd p)) s) at 1.
  apply Permutation_app_tail.
  rewrite <- Permutation_rev, <- isort_perm, <- Permutation_rev. reflexivity.
Qed.

Lemma nans_desc (s : Pandas.Series string) :
  Sorted desc (filter (fun p => F.is_nan (snd p)) s).
Proof.
  induction s as [|a s IH]; simpl; [constructor|].
  destruct (F.is_nan (snd a)) eqn:E; [|exact IH].
  constructor; [exact IH|].
  clear. induction s as [|b s IH]; simpl; [constructor|].
  destruct (F.is_nan (snd b)) eqn:E; [constructor; now left|exact IH].
Qed.

Lemma sort_values_desc (s : Pandas.Series string) :
  Sorted desc (Pandas.sort_values false s).
Proof.
  unfold Pandas.sort_values.
  set (nn := filter (fun p => negb (F.is_nan (snd p))) s).
  set (by_value := fun p q : string * float => (snd p <=? snd q)%float).
  assert (Hnn : Forall (fun p => F.is_nan (snd p) = false) (rev nn)).
  { rewrite Forall_forall. intros p Hp. apply in_rev in Hp.
    apply filter_In in Hp. now apply negb_true_iff. }
  assert (Hs : Sorted (fun p q => by_value p q = true) (isort by_value (rev nn))).
  { apply isort_sorted with (P := fun p => F.is_nan (snd p) = false); [|exact Hnn].
    intros a b Ha Hb. now apply FloatFacts.leb_total. }
  assert (Hin : Forall (fun p => F.is_nan (snd p) = false) (rev (isort by_value (rev nn)))).
  { rewrite Forall_forall in *. intros p Hp. apply Hnn.
    apply in_rev in Hp. eapply Permutation_in; [symmetry; apply isort_perm|exact Hp]. }
  apply Sorted_rev in Hs.
  apply Sorted_app.
  - clear - Hs Hin. induction Hs as [|a l S IH Hd]; [constructor|].
    inversion Hin as [|? ? Ha Hl]; subst. constructor; [now apply IH|].
    destruct Hd as [|b l Hab]; constructor. right. split; assumption.
  - apply nans_desc.
  - intros x y _ Hy. left.
    assert (In y (filter (fun p => F.is_nan (snd p)) s)) as Hz.
    { destruct (filter (fun p => F.is_nan (snd p)) s) as [|z l]; [discriminate|].
      injection Hy as <-. now left. }
    now apply filter_In in Hz.
Qed.

(** The sort as pandas performs it with a stable kernel. *)
Definition pandas_sorter : Sorter :=
  {| run := @Pandas.sort_values string;
     run_perm := sort_values_perm;
     run_desc := sort_values_desc |}.

(** ** Label lookup *)

Section IndexOf.

Context {A : Type} `{Label A}.

Lemma index_of_None (x : A) (l : list A) :
  Pandas.index_of x l = None <-> ~ In x l.
Proof.
  induction l as [|y l IH]; simpl; [tauto|].
  destruct (label_eqb_spec x y) as [->|Hne].
  - split; [discriminate|]. intros Hn. exfalso. apply Hn. now left.
  - destruct (Pandas.index_of x l); simpl; split; try discriminate; intros Hx.
    + exfalso. apply Hx. right.
      destruct (In_dec (fun a b => reflect_dec _ _ (label_eqb_spec a b)) x l) as [Hi|Hn];
        [assumption|]. apply IH in Hn. discriminate.
    + intros [->|Hi]; [now apply Hne|]. now apply IH.
    + reflexivity.
Qed.

Lemma index_of_In (x : A) (l : list A) :
  In x l -> exists j, Pandas.index_of x l = Some j.
Proof.
  intros Hi. destruct (Pandas.index_of x l) as [j|] eqn:E; [now exists j|].
  now apply index_of_None in E.
Qed.

Lemma index_of_Some (x : A) (l : list A) (j : nat) :
  Pandas.index_of x l = Some j -> nth_error l j = Some x.
Proof.
  revert j. induction l as [|y l IH]; intros j; simpl; [discriminate|].
  destruct (label_eqb_spec x y) as [->|Hne].
  - now intros [= <-].
  - destruct (Pandas.index_of x l) as [i|]; simpl; [|discriminate].
    intros [= <-]. now apply IH.
Qed.

Lemma index_of_lt (x : A) (l : list A) (j : nat) :
  Pandas.index_of x l = Some j -> j < List.length l.
Proof.
  intros Hj. apply index_of_Some in Hj. apply nth_error_Some. congruence.
Qed.

Lemma contains_In (x : A) (l : list A) :
  Pandas.contains x l = true <-> In x l.
Proof.
  unfold Pandas.contains. split.
  - destruct (Pandas.index_of x l) eqn:E; [|discriminate].
    intros _. apply index_of_Some in E. eapply nth_error_In, E.
  - intros Hi. now destruct (index_of_In _ _ Hi) as [j ->].
Qed.

End IndexOf.

(** ** The query functions *)

Section QueryFacts.

Import Pandas.

Variable sort_values : SortValues.
Variable df : SimilarityFrame.

Lemma getitem_absent (title : string) :
  ~ In title (columns df) -> getitem df title = Raise Py.KeyError.
Proof.
  intros Hn. unfold getitem. apply index_of_None in Hn. now rewrite Hn.
Qed.

Lemma getitem_present (title : string) :
  In title (columns df) ->
  exists j, index_of title (columns df) = Some j /\
            getitem df title = Ok (combine (index df) (column j (values df))).
Proof.
  intros Hi. destruct (index_of_In _ _ Hi) as [j Hj]. exists j.
  unfold getitem. now rewrite Hj.
Qed.

Lemma getitem_length (title : string) (col : Series string) :
  similarity_matrix df -> getitem df title = Ok col ->
  List.length col = List.length (index df).
Proof.
  intros [Hax _ Hrows _]. unfold getitem.
  destruct (index_of title (columns df)); [|discriminate].
  intros [= <-]. unfold column.
  rewrite length_combine, length_map, Hrows, Hax. lia.
Qed.

(** On a title of the table the app's function returns the Series whose
    labels the script's function lists. *)
Lemma recommend_movie_present (title : string) (n : Z) :
  In title (columns df) ->
  exists col,
    getitem df title = Ok col /\
    Recommender.recommend_movie sort_values df title n
    = Ok (index_tolist (iloc 1 (n + 1) (sort_values false col))) /\
    App.recommend_movie sort_values df title n
    = Ok (App.RSeries (iloc 1 (n + 1) (sort_values false col))).
Proof.
  intros Hi. destruct (getitem_present _ Hi) as (j & Hj & Hg).
  eexists. split; [exact Hg|].
  unfold Recommender.recommend_movie, App.recommend_movie.
  apply contains_In in Hi. rewrite Hi, Hg. simpl. split; reflexivity.
Qed.

End QueryFacts.

(** C2 (as the code has it): for a title that labels no row or column of the
    similarity matrix, [recommend_movie] of movie_recommender.py fails with
    [KeyError], while [recommend_movie] of movie_recommender_app.py returns
    the empty list as an ordinary result. *)
Theorem recommend_movie_unknown_title
  (sort_values : SortValues) (df : SimilarityFrame) (title : string) (n : Z) :
  similarity_matrix df ->
  ~ In title (Pandas.index df) ->
  Recommender.recommend_movie sort_values df title n = Raise Py.KeyError /\
  App.recommend_movie sort_values df title n = Ok (App.RList []).
Proof.
  intros [Hax _ _ _] Hn. rewrite Hax in Hn. split.
  - unfold Recommender.recommend_movie. now rewrite getitem_absent.
  - unfold App.recommend_movie.
    destruct (Pandas.contains title (Pandas.columns df)) eqn:E; [|reflexivity].
    now apply contains_In in E.
Qed.

(** C5: on a similarity matrix over [k] titles, for a title of the matrix and
    [n >= 1], both [recommend_movie] functions return normally and the result
    has [min n (k - 1)] entries, whatever kernel sorts the scores. *)
Theorem recommend_movie_length
  (srt : Sorter) (df : SimilarityFrame) (title : string) (n : Z) :
  similarity_matrix df ->
  In title (Pandas.index df) ->
  (1 <= n)%Z ->
  let k := List.length (Pandas.index df) in
  (exists l, Recommender.recommend_movie (run srt) df title n = Ok l /\
             List.length l = Nat.min (Z.to_nat n) (k - 1)) /\
  (exists s, App.recommend_movie (run srt) df title n = Ok (App.RSeries s) /\
             List.length s = Nat.min (Z.to_nat n) (k - 1)).
Proof.
  intros Hsm Hi Hn k. pose proof Hsm as [Hax _ _ _]. rewrite Hax in Hi.
  destruct (@recommend_movie_present (run srt) df title n Hi) as (col & Hg & Hr & Ha).
  assert (Hlen : List.length (Pandas.iloc 1 (n + 1) (run srt false col))
                 = Nat.min (Z.to_nat n) (k - 1)).
  { unfold Pandas.iloc. rewrite slice_from_1_length by lia.
    rewrite <- (Permutation_length (run_perm srt col)).
    rewrite (@getitem_length df title col Hsm Hg). fold k. lia. }
  split; eexists; (split; [eassumption|]); [|exact Hlen].
  unfold Pandas.index_tolist. now rewrite length_map.
Qed.

(** C10: on a title of the similarity matrix and with five recommendations
    asked for, the list of titles returned by movie_recommender.py is the
    index, in order, of the Series returned by movie_recommender_app.py. *)
Theorem recommend_movie_agree
  (sort_values : SortValues) (df : SimilarityFrame) (title : string) :
  similarity_matrix df ->
  In title (Pandas.index df) ->
  exists s,
    App.recommend_movie sort_values df title 5 = Ok (App.RSeries s) /\
    Recommender.recommend_movie sort_values df title 5 = Ok (Pandas.index_tolist s).
Proof.
  intros [Hax _ _ _] Hi. rewrite Hax in Hi.
  destruct (@recommend_movie_present sort_values df title 5 Hi) as (col & _ & Hr & Ha).
  eexists. split; eassumption.
Qed.

(** ** Concrete runs *)

Module Runs.

Import Pandas.
Local Open Scope string_scope.

Lemma load_data_twins : Recommender.load_data Samples.twins = Ok Samples.twins_df.
Proof. vm_compute. reflexivity. Qed.

Lemma twins_similarity_matrix : similarity_matrix Samples.twins_df.
Proof.
  split; simpl; try reflexivity.
  - repeat constructor; simpl; intuition discriminate.
  - repeat constructor.
Qed.

(** With the stable kernel the tie is resolved in favour of the label that
    comes first, and asking for "B" returns "B". *)
Lemma recommend_movie_twins_stable :
  Recommender.recommend_movie (run pandas_sorter) Samples.twins_df "B" 1 = Ok ["B"] /\
  App.recommend_movie (run pandas_sorter) Samples.twins_df "B" 1
  = Ok (App.RSeries [("B", 1%float)]).
Proof. split; vm_compute; reflexivity. Qed.

Lemma load_data_three_by_three :
  Recommender.load_data Samples.three_by_three = Ok Samples.abc_df.
Proof. vm_compute. reflexivity. Qed.

Lemma load_data_three_by_three_sparse :
  Recommender.load_data Samples.three_by_three_sparse = Ok Samples.abc_df.
Proof. vm_compute. reflexivity. Qed.

End Runs.

(** C1 (fails on the code): two movies with the same rating column have
    similarity 1 with each other and with themselves, so the query title is
    not singled out by its score; skipping the first sorted entry then drops
    one of the two titles for both queries, and one of the two queries gets
    its own title back.  This holds whatever order the sort gives to ties. *)
Theorem recommend_movie_returns_query (srt : Sorter) :
  exists df title,
    Recommender.load_data Samples.twins = Ok df /\
    In title (Pandas.index df) /\
    Recommender.recommend_movie (run srt) df title 1 = Ok [title] /\
    App.recommend_movie (run srt) df title 1 = Ok (App.RSeries [(title, 1%float)]).
Proof.
  exists Samples.twins_df.
  assert (Hcol : forall t, In t ["A"; "B"]%string ->
            Pandas.getitem Samples.twins_df t
            = Ok [("A"%string, 1%float); ("B"%string, 1%float)]).
  { intros t [<-|[<-|[]]]; reflexivity. }
  set (col := [("A"%string, 1%float); ("B"%string, 1%float)]) in *.
  assert (Hq : forall t, In t ["A"; "B"]%string ->
            Recommender.recommend_movie (run srt) Samples.twins_df t 1
            = Ok (Pandas.index_tolist (Pandas.iloc 1 2 (run srt false col))) /\
            App.recommend_movie (run srt) Samples.twins_df t 1
            = Ok (App.RSeries (Pandas.iloc 1 2 (run srt false col)))).
  { intros t Ht.
    destruct (@recommend_movie_present (run srt) Samples.twins_df t 1 Ht)
      as (c & Hg & Hr & Ha).
    rewrite (Hcol t Ht) in Hg. injection Hg as <-. now split. }
  destruct (Permutation_length_2_inv (run_perm srt col)) as [E|E].
  - exists "B"%string. destruct (Hq "B"%string) as [Hr Ha]; [simpl; tauto|].
    rewrite Hr, Ha, E.
    split; [apply Runs.load_data_twins|]. split; [simpl; tauto|]. split; reflexivity.
  - exists "A"%string. destruct (Hq "A"%string) as [Hr Ha]; [simpl; tauto|].
    rewrite Hr, Ha, E.
    split; [apply Runs.load_data_twins|]. split; [simpl; tauto|]. split; reflexivity.
Qed.

(** C6 (as the code has it): with no rating observations the merged frame
    and the pivot table are empty (no row, no column), and
    [cosine_similarity] rejects the empty table with [ValueError]; neither
    [load_data] catches it, so no similarity matrix is produced. *)
Theorem load_data_no_ratings (movies : list Pandas.MovieRow) :
  let files := {| u_data := Ok []; u_item := Ok movies |} in
  Pandas.pivot_table (Pandas.merge [] movies)
  = {| Pandas.index := []; Pandas.columns := []; Pandas.values := [] |} /\
  Recommender.load_data files = Raise Py.ValueError /\
  App.load_data files = Raise Py.ValueError.
Proof. repeat split. Qed.

(** C6 as stated is refuted by the sample without ratings. *)
Lemma load_data_no_ratings_fails :
  Recommender.load_data Samples.no_ratings = Raise Py.ValueError /\
  App.load_data Samples.no_ratings = Raise Py.ValueError /\
  ~ (exists df, Recommender.load_data Samples.no_ratings = Ok df).
Proof.
  repeat split. intros [df H]. discriminate H.
Qed.

(** C2 as stated is refuted by the app on a title that is not in the table:
    the call returns normally, with an empty list. *)
Lemma app_unknown_title_returns_empty :
  ~ In "NoSuchItem"%string (Pandas.index Samples.twins_df) /\
  App.recommend_movie (run pandas_sorter) Samples.twins_df "NoSuchItem" 5
  = Ok (App.RList []) /\
  ~ (exists e, App.recommend_movie (run pandas_sorter) Samples.twins_df "NoSuchItem" 5
               = Raise e).
Proof.
  repeat split.
  - simpl. intuition discriminate.
  - intros [e H]. discriminate H.
Qed.

(** ** Instances on the sample tables *)

Lemma abc_similarity_matrix : similarity_matrix Samples.abc_df.
Proof.
  split; simpl; try reflexivity.
  - repeat constructor; simpl; intuition discriminate.
  - repeat constructor.
Qed.

Lemma recommend_movie_unknown_title_witness :
  similarity_matrix Samples.twins_df /\
  ~ In "NoSuchItem"%string (Pandas.index Samples.twins_df) /\
  Recommender.recommend_movie (run pandas_sorter) Samples.twins_df "NoSuchItem" 5
  = Raise Py.KeyError /\
  App.recommend_movie (run pandas_sorter) Samples.twins_df "NoSuchItem" 5
  = Ok (App.RList []).
Proof.
  assert (Hn : ~ In "NoSuchItem"%string (Pandas.index Samples.twins_df))
    by (simpl; intuition discriminate).
  split; [exact Runs.twins_similarity_matrix|]. split; [exact Hn|].
  exact (@recommend_movie_unknown_title (run pandas_sorter) Samples.twins_df
           "NoSuchItem"%string 5 Runs.twins_similarity_matrix Hn).
Defined.

Lemma recommend_movie_length_witness :
  similarity_matrix Samples.abc_df /\
  In "A"%string (Pandas.index Samples.abc_df) /\
  (1 <= 2)%Z /\
  (exists l, Recommender.recommend_movie (run pandas_sorter) Samples.abc_df "A" 2 = Ok l /\
             List.length l = 2) /\
  (exists s, App.recommend_movie (run pandas_sorter) Samples.abc_df "A" 2
             = Ok (App.RSeries s) /\
             List.length s = 2).
Proof.
  assert (Hi : In "A"%string (Pandas.index Samples.abc_df)) by (simpl; tauto).
  assert (Hn : (1 <= 2)%Z) by lia.
  split; [exact abc_similarity_matrix|]. split; [exact Hi|]. split; [exact Hn|].
  exact (@recommend_movie_length pandas_sorter Samples.abc_df "A"%string 2
           abc_similarity_matrix Hi Hn).
Defined.

Lemma recommend_movie_agree_witness :
  similarity_matrix Samples.abc_df /\
  In "B"%string (Pandas.index Samples.abc_df) /\
  exists s,
    App.recommend_movie (run pandas_sorter) Samples.abc_df "B" 5 = Ok (App.RSeries s) /\
    Recommender.recommend_movie (run pandas_sorter) Samples.abc_df "B" 5
    = Ok (Pandas.index_tolist s).
Proof.
  assert (Hi : In "B"%string (Pandas.index Samples.abc_df)) by (simpl; tauto).
  split; [exact abc_similarity_matrix|]. split; [exact Hi|].
  exact (@recommend_movie_agree (run pandas_sorter) Samples.abc_df "B"%string
           abc_similarity_matrix Hi).
Defined.

(** ** The three-by-three scenario *)

(** A sorted rearrangement of three entries that are pairwise out of order
    the other way round is the original list. *)
Lemma sorted_perm3 (a b c : string * float) (l : list (string * float)) :
  Permutation [a; b; c] l -> Sorted desc l ->
  ~ desc b a -> ~ desc c a -> ~ desc c b ->
  l = [a; b; c].
Proof.
  intros P S Hba Hca Hcb.
  destruct (Permutation_vs_cons_inv (Permutation_sym P)) as (l1 & l2 & ->).
  apply Permutation_cons_app_inv in P.
  apply Permutation_length_2_inv in P.
  assert (adj : forall x y pre post, Sorted desc (pre ++ x :: y :: post) -> desc x y).
  { intros x y pre post. induction pre as [|z pre IH]; simpl; intros Hs.
    - inversion Hs as [|? ? _ Hd]; subst. now inversion Hd.
    - inversion Hs; subst. now apply IH. }
  destruct l1 as [|x [|y [|z l1]]]; simpl in P.
  - destruct P as [->| ->]; [reflexivity|].
    exfalso. apply Hcb. exact (adj c b [a] [] S).
  - destruct P as [P|P]; injection P as -> ->; exfalso.
    + apply Hba. exact (adj b a [] [c] S).
    + apply Hca. exact (adj c a [] [b] S).
  - destruct P as [P|P]; injection P as -> -> ->; exfalso.
    + apply Hca. exact (adj c a [b] [] S).
    + apply Hcb. exact (adj c b [] [a] S).
  - destruct P as [P|P]; injection P as -> -> P; destruct l1; discriminate.
Qed.

(** C7: for U1 = {A:5, B:3, C:0}, U2 = {A:4, B:0, C:0}, U3 = {A:0, B:0, C:5}
    the similarity of A and B exceeds the similarity of A and C, and
    [recommend_movie "A" 2] returns B then C, under every sorting kernel. *)
Theorem three_by_three_scenario (srt : Sorter) :
  exists df ab ac,
    Recommender.load_data Samples.three_by_three = Ok df /\
    Pandas.at_ df "A"%string "B"%string = Some ab /\
    Pandas.at_ df "A"%string "C"%string = Some ac /\
    (ac <? ab)%float = true /\
    Recommender.recommend_movie (run srt) df "A" 2 = Ok ["B"%string; "C"%string].
Proof.
  exists Samples.abc_df, 0x1.8fce095e0c6d5p-1%float, 0%float.
  split; [apply Runs.load_data_three_by_three|].
  do 3 (split; [reflexivity|]).
  assert (Hi : In "A"%string (Pandas.columns Samples.abc_df)) by (simpl; tauto).
  destruct (@recommend_movie_present (run srt) Samples.abc_df "A"%string 2 Hi)
    as (col & Hg & Hr & _).
  vm_compute in Hg. injection Hg as <-.
  rewrite Hr. clear Hr.
  rewrite (@sorted_perm3 _ _ _ _ (run_perm srt _) (run_desc srt _)).
  - reflexivity.
  - intros [H|[_ H]]; vm_compute in H; discriminate H.
  - intros [H|[_ H]]; vm_compute in H; discriminate H.
  - intros [H|[_ H]]; vm_compute in H; discriminate H.
Qed.

(** ** Shape of the similarity table *)

Section AxisFacts.

Variable A : Type.
Variable eq_dec : forall x y : A, {x = y} + {x <> y}.
Variable leb : A -> A -> bool.

Lemma sort_unique_In (x : A) (l : list A) :
  In x (Pandas.sort_unique eq_dec leb l) <-> In x l.
Proof.
  unfold Pandas.sort_unique. rewrite <- (nodup_In eq_dec l x). split; intros H.
  - eapply Permutation_in; [symmetry; apply isort_perm|exact H].
  - eapply Permutation_in; [apply isort_perm|exact H].
Qed.

Lemma sort_unique_NoDup (l : list A) : NoDup (Pandas.sort_unique eq_dec leb l).
Proof.
  unfold Pandas.sort_unique.
  eapply Permutation_NoDup; [apply isort_perm|apply NoDup_nodup].
Qed.

End AxisFacts.

Section GramFacts.

Import Sklearn.

Lemma gram_length (Xn : list (list float)) :
  List.length (gram Xn) = List.length Xn.
Proof. unfold gram. apply length_map. Qed.

Lemma gram_rows (Xn : list (list float)) :
  Forall (fun row => List.length row = List.length Xn) (gram Xn).
Proof.
  unfold gram. rewrite Forall_forall. intros row Hrow.
  apply in_map_iff in Hrow. destruct Hrow as (a & <- & _). apply length_map.
Qed.

Lemma gram_entry (Xn : list (list float)) (i j : nat) (xi xj : list float) :
  nth_error Xn i = Some xi -> nth_error Xn j = Some xj ->
  exists row, nth_error (gram Xn) i = Some row /\
              nth_error row j = Some (F.dot xi xj).
Proof.
  intros Hi Hj. exists (map (fun b => F.dot xi b) Xn). unfold gram.
  rewrite !nth_error_map, Hi, Hj. split; reflexivity.
Qed.

End GramFacts.

Section LoadDataFacts.

Import Pandas Sklearn.

Lemma load_data_Ok (files : Files) (df : SimilarityFrame) :
  Recommender.load_data files = Ok df ->
  exists ratings movies,
    u_data files = Ok ratings /\ u_item files = Ok movies /\
    forallb (forallb F.is_finite) (values (rating_rows ratings movies)) = true /\
    columns (pivot_table (merge ratings movies)) <> [] /\
    df = {| index := columns (pivot_table (merge ratings movies));
            columns := columns (pivot_table (merge ratings movies));
            values := gram (normalize (values (rating_rows ratings movies))) |}.
Proof.
  unfold Recommender.load_data.
  destruct (u_data files) as [ratings|]; [|discriminate].
  destruct (u_item files) as [movies|]; [|discriminate].
  cbn [Py.bind]. fold (rating_rows ratings movies).
  unfold cosine_similarity, check_array.
  remember (pivot_table (merge ratings movies)) as M eqn:EM.
  remember (rating_rows ratings movies) as X eqn:EX.
  assert (Ei : index X = columns M) by (rewrite EX, EM; reflexivity).
  destruct (forallb (forallb F.is_finite) (values X)) eqn:Ef;
    cbn [negb Py.bind]; [|discriminate].
  destruct (index X) as [|t ts] eqn:Ei'; cbn [List.length Nat.ltb Nat.leb Py.bind];
    [discriminate|].
  destruct (columns X) as [|u us] eqn:Ec; cbn [List.length Nat.ltb Nat.leb Py.bind];
    [discriminate|].
  intros [= <-]. exists ratings, movies. rewrite <- EM, <- EX, <- Ei.
  repeat split; try assumption. discriminate.
Qed.

Lemma app_load_data_Ok (files : Files) (df : SimilarityFrame) (data : list DataRow) :
  App.load_data files = Ok (Some (df, data)) ->
  Recommender.load_data files = Ok df.
Proof.
  unfold App.load_data, Recommender.load_data.
  destruct (u_data files) as [ratings|[]]; try discriminate;
    destruct (u_item files) as [movies|[]]; try discriminate; simpl.
  all: destruct (cosine_similarity _) as [K|[]]; simpl; try discriminate.
  now intros [= <- _].
Qed.

Lemma rating_rows_length (ratings : list RatingRow) (movies : list MovieRow) :
  List.length (values (rating_rows ratings movies))
  = List.length (columns (pivot_table (merge ratings movies))).
Proof. simpl. now rewrite length_map, length_seq. Qed.

(** What [load_data] returns is a similarity matrix. *)
Lemma load_data_similarity_matrix (files : Files) (df : SimilarityFrame) :
  Recommender.load_data files = Ok df -> similarity_matrix df.
Proof.
  intros H. apply load_data_Ok in H.
  destruct H as (ratings & movies & _ & _ & _ & _ & ->).
  pose proof (rating_rows_length ratings movies) as Hlen.
  split; simpl.
  - reflexivity.
  - apply sort_unique_NoDup.
  - unfold normalize. rewrite gram_length, length_map. exact Hlen.
  - pose proof (gram_rows (normalize (values (rating_rows ratings movies)))) as Hr.
    unfold normalize in Hr at 1. rewrite length_map, Hlen in Hr. exact Hr.
Qed.

End LoadDataFacts.

(** C3: the similarity matrix [load_data] produces is symmetric: for any two
    titles of its index the entries at (a, b) and (b, a) exist and are the
    same number. *)
Theorem load_data_symmetric (files : Files) (df : SimilarityFrame) (a b : string) :
  Recommender.load_data files = Ok df \/
  (exists data, App.load_data files = Ok (Some (df, data))) ->
  In a (Pandas.index df) -> In b (Pandas.index df) ->
  exists v, Pandas.at_ df a b = Some v /\ Pandas.at_ df b a = Some v.
Proof.
  intros H Ha Hb.
  assert (H' : Recommender.load_data files = Ok df).
  { destruct H as [H|[data H]]; [exact H|]. eapply app_load_data_Ok, H. }
  clear H. rename H' into H. apply load_data_Ok in H.
  destruct H as (ratings & movies & _ & _ & _ & _ & ->).
  cbn [Pandas.index] in Ha, Hb.
  set (cols := Pandas.columns (Pandas.pivot_table (Pandas.merge ratings movies))) in *.
  set (Xn := Sklearn.normalize (Pandas.values (rating_rows ratings movies))).
  assert (Hlen : List.length Xn = List.length cols).
  { unfold Xn, Sklearn.normalize. rewrite length_map. apply rating_rows_length. }
  destruct (index_of_In _ _ Ha) as [i Hi]. destruct (index_of_In _ _ Hb) as [j Hj].
  assert (Hxi : exists xi, nth_error Xn i = Some xi).
  { destruct (nth_error Xn i) eqn:E; [eauto|]. apply nth_error_None in E.
    apply index_of_lt in Hi. lia. }
  assert (Hxj : exists xj, nth_error Xn j = Some xj).
  { destruct (nth_error Xn j) eqn:E; [eauto|]. apply nth_error_None in E.
    apply index_of_lt in Hj. lia. }
  destruct Hxi as [xi Hxi]. destruct Hxj as [xj Hxj].
  destruct (gram_entry Xn i j xi xj Hxi Hxj) as (ri & Hri & Hij).
  destruct (gram_entry Xn j i xj xi Hxj Hxi) as (rj & Hrj & Hji).
  exists (F.dot xi xj). unfold Pandas.at_.
  cbn [Pandas.index Pandas.columns Pandas.values]. fold Xn.
  rewrite Hi, Hj, Hri, Hrj. split; [exact Hij|].
  rewrite Hji. f_equal. apply FloatFacts.dot_comm.
Qed.

(** ** The grouped mean and the pivot table *)

Section GroupFacts.

Import Pandas.

Lemma key_eqb_spec (k k' : key) : reflect (k = k') (key_eqb k k').
Proof.
  destruct k as [u t], k' as [u' t']. unfold key_eqb. simpl.
  destruct (Z.eqb_spec u u') as [->|Hu]; simpl.
  - destruct (String.eqb_spec t t') as [->|Ht]; constructor; congruence.
  - constructor. congruence.
Qed.

Lemma key_eqb_refl (k : key) : key_eqb k k = true.
Proof. now destruct (key_eqb_spec k k). Qed.

Lemma lookup_upd_same (k : key) (v : float) (m : list (key * MeanAcc)) :
  lookup k (upd k v m) = Some (mean_step (acc_of (lookup k m)) v).
Proof.
  induction m as [|[k' a] m IH]; simpl.
  - now rewrite key_eqb_refl.
  - destruct (key_eqb k k') eqn:E; simpl; rewrite E; [reflexivity|exact IH].
Qed.

Lemma lookup_upd_other (k k' : key) (v : float) (m : list (key * MeanAcc)) :
  k <> k' -> lookup k' (upd k v m) = lookup k' m.
Proof.
  intros Hne. induction m as [|[k'' a] m IH]; simpl.
  - destruct (key_eqb_spec k' k); [congruence|reflexivity].
  - destruct (key_eqb_spec k k'') as [<-|Hk]; simpl.
    + destruct (key_eqb_spec k' k); [congruence|reflexivity].
    + now rewrite IH.
Qed.

Lemma upd_keys (k : key) (v : float) (m : list (key * MeanAcc)) :
  map fst (upd k v m) = map fst m \/
  (~ In k (map fst m) /\ map fst (upd k v m) = map fst m ++ [k]).
Proof.
  induction m as [|[k' a] m IH]; simpl.
  - right. split; [tauto|reflexivity].
  - destruct (key_eqb_spec k k') as [<-|Hne]; simpl; [now left|].
    destruct IH as [->|[Hn ->]]; [now left|].
    right. split; [|reflexivity]. intros [E|Hi]; [congruence|tauto].
Qed.

Lemma group_pass_keys_NoDup (data : list DataRow) :
  NoDup (map fst (group_pass data)).
Proof.
  unfold group_pass.
  assert (G : forall m, NoDup (map fst m) ->
            NoDup (map fst (fold_left (fun m r => upd (key_of r) (rating r) m) data m))).
  { induction data as [|r data IH]; intros m Hm; simpl; [exact Hm|].
    apply IH. destruct (upd_keys (key_of r) (rating r) m) as [->|[Hn ->]]; [exact Hm|].
    apply NoDup_app; [exact Hm|repeat constructor; simpl; tauto|].
    intros x Hx [<-|[]]. contradiction. }
  apply G. constructor.
Qed.

Lemma state_after_cons (o : option MeanAcc) (v : float) (vals : list float) :
  state_after o (v :: vals) = state_after (Some (mean_step (acc_of o) v)) vals.
Proof. destruct vals; reflexivity. Qed.

Lemma lookup_fold (k : key) (data : list DataRow) (m : list (key * MeanAcc)) :
  lookup k (fold_left (fun m r => upd (key_of r) (rating r) m) data m)
  = state_after (lookup k m) (group_values data k).
Proof.
  revert m. induction data as [|r data IH]; intros m; [reflexivity|].
  simpl fold_left. rewrite IH. unfold group_values. simpl filter.
  destruct (key_eqb_spec k (key_of r)) as [->|Hne].
  - simpl map. rewrite state_after_cons. now rewrite lookup_upd_same.
  - rewrite lookup_upd_other by congruence. reflexivity.
Qed.

Lemma lookup_group_pass (k : key) (data : list DataRow) :
  lookup k (group_pass data) = state_after None (group_values data k).
Proof. apply lookup_fold. Qed.

Lemma lookup_map (V W : Type) (f : V -> W) (k : key) (m : list (key * V)) :
  lookup k (map (fun p => (fst p, f (snd p))) m) = option_map f (lookup k m).
Proof.
  induction m as [|[k' v] m IH]; simpl; [reflexivity|].
  destruct (key_eqb k k'); [reflexivity|exact IH].
Qed.

Lemma lookup_In (V : Type) (k : key) (v : V) (m : list (key * V)) :
  lookup k m = Some v -> In (k, v) m.
Proof.
  induction m as [|[k' v'] m IH]; simpl; [discriminate|].
  destruct (key_eqb_spec k k') as [->|Hne].
  - intros [= ->]. now left.
  - intros H. right. now apply IH.
Qed.

Lemma lookup_not_In (V : Type) (k : key) (m : list (key * V)) :
  ~ In k (map fst m) -> lookup k m = None.
Proof.
  induction m as [|[k' v'] m IH]; simpl; [reflexivity|].
  intros Hn. destruct (key_eqb_spec k k') as [->|Hne]; [tauto|].
  apply IH. tauto.
Qed.

Lemma lookup_filter (V : Type) (P : V -> bool) (k : key) (m : list (key * V)) :
  NoDup (map fst m) ->
  lookup k (filter (fun p => P (snd p)) m)
  = match lookup k m with
    | Some v => if P v then Some v else None
    | None => None
    end.
Proof.
  induction m as [|[k' v] m IH]; simpl; [reflexivity|].
  intros Hnd. inversion Hnd as [|? ? Hn Hnd']; subst.
  destruct (key_eqb_spec k k') as [->|Hne].
  - destruct (P v) eqn:E; simpl.
    + now rewrite key_eqb_refl.
    + apply lookup_not_In. intros Hi. apply Hn.
      apply in_map_iff in Hi. destruct Hi as (p & Hp & Hi).
      apply filter_In in Hi. apply in_map_iff. exists p. tauto.
  - destruct (P v); simpl.
    + destruct (key_eqb_spec k k'); [congruence|]. now apply IH.
    + now apply IH.
Qed.

Lemma is_nan_eq (x : float) : F.is_nan x = true -> x = nan.
Proof.
  intros H. apply Prim2SF_inj. apply FloatFacts.is_nan_Prim2SF in H.
  rewrite H. reflexivity.
Qed.

Lemma lookup_agged (data : list DataRow) (k : key) :
  lookup k (agged data)
  = if F.is_nan (group_mean (group_values data k)) then None
    else Some (group_mean (group_values data k)).
Proof.
  unfold agged, groupby_mean.
  rewrite (lookup_filter _ (fun v => negb (F.is_nan v))).
  2:{ rewrite map_map. simpl. apply group_pass_keys_NoDup. }
  rewrite lookup_map, lookup_group_pass. unfold group_mean.
  destruct (group_values data k) as [|v vals]; simpl; [reflexivity|].
  now destruct (F.is_nan _).
Qed.

Lemma pivot_table_index (data : list DataRow) (u : Z) :
  In u (index (pivot_table data)) <-> exists t v, In ((u, t), v) (agged data).
Proof.
  unfold pivot_table. cbn [index]. fold (agged data).
  rewrite sort_unique_In, in_map_iff. split.
  - intros ([[u' t] v] & <- & Hi). now exists t, v.
  - intros (t & v & Hi). now exists ((u, t), v).
Qed.

Lemma pivot_table_columns (data : list DataRow) (t : string) :
  In t (columns (pivot_table data)) <-> exists u v, In ((u, t), v) (agged data).
Proof.
  unfold pivot_table. cbn [columns]. fold (agged data).
  rewrite sort_unique_In, in_map_iff. split.
  - intros ([[u t'] v] & <- & Hi). now exists u, v.
  - intros (u & v & Hi). now exists ((u, t), v).
Qed.

Lemma pivot_table_at (data : list DataRow) (u : Z) (t : string) :
  In u (index (pivot_table data)) -> In t (columns (pivot_table data)) ->
  at_ (pivot_table data) u t
  = Some (match lookup (u, t) (agged data) with Some v => v | None => nan end).
Proof.
  intros Hu Ht. unfold at_.
  destruct (index_of_In _ _ Hu) as [i Hi]. destruct (index_of_In _ _ Ht) as [j Hj].
  rewrite Hi, Hj. apply index_of_Some in Hi, Hj.
  unfold pivot_table in *. cbn [index columns values] in *. fold (agged data) in *.
  rewrite nth_error_map, Hi. cbn [option_map].
  rewrite nth_error_map, Hj. reflexivity.
Qed.

(** Every cell of the pivot table is the grouped mean of the ratings of its
    (user, title) pair, which is NaN when the pair has no rating. *)
Lemma pivot_table_cell (data : list DataRow) (u : Z) (t : string) :
  In u (index (pivot_table data)) -> In t (columns (pivot_table data)) ->
  at_ (pivot_table data) u t = Some (group_mean (group_values data (u, t))).
Proof.
  intros Hu Ht. rewrite pivot_table_at by assumption. rewrite lookup_agged.
  destruct (F.is_nan _) eqn:E; [|reflexivity].
  now rewrite (is_nan_eq _ E).
Qed.

Lemma pivot_table_rated (data : list DataRow) (u : Z) (t : string) :
  F.is_nan (group_mean (group_values data (u, t))) = false ->
  In u (index (pivot_table data)) /\ In t (columns (pivot_table data)).
Proof.
  intros E. pose proof (lookup_agged data (u, t)) as H. rewrite E in H.
  apply lookup_In in H. split.
  - apply pivot_table_index. eauto.
  - apply pivot_table_columns. eauto.
Qed.

End GroupFacts.

Section MeanOfTwo.

Import Pandas.
Local Open Scope float_scope.





End MeanOfTwo.

(** ** Cells after the fill *)

Section FillFacts.

Import Pandas.

Lemma at_fillna (I C : Type) `{Label I} `{Label C} (v : float)
      (M : DataFrame I C) (r : I) (c : C) :
  at_ (fillna v M) r c
  = option_map (fun x => if F.is_nan x then v else x) (at_ M r c).
Proof.
  unfold at_, fillna. cbn [index columns values].
  destruct (index_of r (index M)) as [i|]; [|reflexivity].
  destruct (index_of c (columns M)) as [j|]; [|reflexivity].
  rewrite nth_error_map.
  destruct (nth_error (values M) i) as [row|]; [|reflexivity].
  cbn [option_map]. now rewrite nth_error_map.
Qed.

End FillFacts.

(** ** Means of whole-number ratings *)

Section IntegerMean.

Import Pandas Binary64.
Local Open Scope float_scope.








End IntegerMean.



(** ** Titles shared by several movie ids *)

Section MergeFacts.

Import Pandas Sklearn.



Lemma load_data_succeeds (ratings : list RatingRow) (movies : list MovieRow) :
  forallb (forallb F.is_finite) (values (rating_rows ratings movies)) = true ->
  index (pivot_table (merge ratings movies)) <> [] ->
  columns (pivot_table (merge ratings movies)) <> [] ->
  Recommender.load_data {| u_data := Ok ratings; u_item := Ok movies |}
  = Ok {| index := columns (pivot_table (merge ratings movies));
          columns := columns (pivot_table (merge ratings movies));
          values := gram (normalize (values (rating_rows ratings movies))) |}.
Proof.
  intros Hf Hi Hc. unfold Recommender.load_data. cbn [u_data u_item Py.bind].
  fold (rating_rows ratings movies). unfold cosine_similarity, check_array.
  rewrite Hf. cbn [negb].
  change (index (rating_rows ratings movies))
    with (columns (pivot_table (merge ratings movies))).
  change (columns (rating_rows ratings movies))
    with (index (pivot_table (merge ratings movies))).
  destruct (columns (pivot_table (merge ratings movies))); [congruence|].
  destruct (index (pivot_table (merge ratings movies))); [congruence|].
  reflexivity.
Qed.

Lemma app_load_data_of_script (ratings : list RatingRow) (movies : list MovieRow)
      (df : SimilarityFrame) :
  Recommender.load_data {| u_data := Ok ratings; u_item := Ok movies |} = Ok df ->
  App.load_data {| u_data := Ok ratings; u_item := Ok movies |}
  = Ok (Some (df, merge ratings movies)).
Proof.
  unfold Recommender.load_data, App.load_data. cbn [u_data u_item Py.bind].
  destruct (cosine_similarity _) as [K|e]; [|discriminate].
  now intros [= <-].
Qed.

End MergeFacts.



(** The pooled cell of user 1 in the sample is the mean of 5 and 3. *)
Lemma remake_pooled_cell :
  Pandas.at_ (Pandas.pivot_table
                (Pandas.merge Samples.remake_ratings Samples.remake_movies))
             1%Z "A"%string
  = Some 4%float.
Proof. reflexivity. Qed.

Lemma load_data_symmetric_witness :
  (Recommender.load_data Samples.three_by_three = Ok Samples.abc_df \/
   (exists data, App.load_data Samples.three_by_three = Ok (Some (Samples.abc_df, data)))) /\
  In "A"%string (Pandas.index Samples.abc_df) /\
  In "B"%string (Pandas.index Samples.abc_df) /\
  exists v, Pandas.at_ Samples.abc_df "A"%string "B"%string = Some v /\
            Pandas.at_ Samples.abc_df "B"%string "A"%string = Some v.
Proof.
  assert (H : Recommender.load_data Samples.three_by_three = Ok Samples.abc_df \/
              (exists data, App.load_data Samples.three_by_three
                            = Ok (Some (Samples.abc_df, data))))
    by (left; exact Runs.load_data_three_by_three).
  assert (Ha : In "A"%string (Pandas.index Samples.abc_df)) by (simpl; tauto).
  assert (Hb : In "B"%string (Pandas.index Samples.abc_df)) by (simpl; tauto).
  split; [exact H|]. split; [exact Ha|]. split; [exact Hb|].
  exact (load_data_symmetric Samples.three_by_three Samples.abc_df "A"%string "B"%string
           H Ha Hb).
Defined.

(** ** The zero-norm guard of [cosine_similarity] *)

Section CosineFacts.

Import Pandas Sklearn Binary64 Rounding.
Local Open Scope float_scope.

Lemma is_finite_fin (x : float) : F.is_finite x = true -> fin (Prim2SF x) = true.
Proof.
  unfold F.is_finite, is_finite, Prim2SF.
  destruct (is_nan x); [discriminate|]. destruct (is_infinity x); [discriminate|].
  intros _. destruct (is_zero x); [reflexivity|].
  destruct (Z.frexp x) as [r e].
  destruct (shr_fexp prec emax _ _ _) as [m e'].
  now destruct (shr_m m).
Qed.

Lemma is_zero_Prim2SF (x : float) :
  F.is_zero x = true <-> is_zero_sf (Prim2SF x) = true.
Proof.
  unfold F.is_zero. rewrite eqb_spec. change (Prim2SF 0) with (S754_zero false).
  destruct (Prim2SF x) as [s|[]| |[] m e]; split; try reflexivity; discriminate.
Qed.

Lemma is_zero_is_finite (x : float) : F.is_zero x = true -> F.is_finite x = true.
Proof.
  intros H. apply is_zero_Prim2SF in H.
  unfold F.is_finite, is_finite, is_infinity.
  assert (Hn : F.is_nan x = false).
  { apply FloatFacts.not_nan_Prim2SF. intros E. rewrite E in H. discriminate. }
  unfold F.is_nan in Hn. rewrite Hn. rewrite eqb_spec, abs_spec.
  change (Prim2SF infinity) with (S754_infinity false).
  now destruct (Prim2SF x) as [s|[]| |[] m e].
Qed.

Lemma dot_self (row : list float) :
  F.dot row row = fold_left (fun acc x => acc + x * x) row 0.
Proof.
  unfold F.dot. generalize 0.
  induction row as [|x row IH]; intros acc; simpl; [reflexivity|apply IH].
Qed.

Lemma sum_squares_nonneg (row : list float) (acc : float) :
  forallb F.is_finite row = true -> nonneg (Prim2SF acc) = true ->
  nonneg (Prim2SF (fold_left (fun acc x => acc + x * x) row acc)) = true.
Proof.
  revert acc. induction row as [|x row IH]; intros acc Hf Ha; simpl; [exact Ha|].
  simpl in Hf. apply andb_true_iff in Hf. destruct Hf as [Hx Hf].
  apply IH; [exact Hf|]. rewrite add_spec, mul_spec.
  apply SFadd_nonneg; [exact Ha|]. now apply SFmul_square_nonneg, is_finite_fin.
Qed.

Lemma sum_squares_inf (row : list float) (acc : float) :
  forallb F.is_finite row = true -> Prim2SF acc = S754_infinity false ->
  Prim2SF (fold_left (fun acc x => acc + x * x) row acc) = S754_infinity false.
Proof.
  revert acc. induction row as [|x row IH]; intros acc Hf Ha; simpl; [exact Ha|].
  simpl in Hf. apply andb_true_iff in Hf. destruct Hf as [Hx Hf].
  apply IH; [exact Hf|]. rewrite add_spec, mul_spec, Ha.
  now apply SFadd_inf_l, SFmul_square_nonneg, is_finite_fin.
Qed.

(** One entry of 2^512 or more makes the sum of squares overflow. *)
Lemma sum_squares_overflow (row : list float) (acc x : float) :
  forallb F.is_finite row = true -> nonneg (Prim2SF acc) = true ->
  In x row -> (513 <= mag (Prim2SF x))%Z ->
  Prim2SF (fold_left (fun acc x => acc + x * x) row acc) = S754_infinity false.
Proof.
  revert acc. induction row as [|y row IH]; intros acc Hf Ha Hin Hx; [destruct Hin|].
  simpl in Hf. apply andb_true_iff in Hf. destruct Hf as [Hy Hf]. simpl.
  destruct Hin as [->|Hin].
  - apply sum_squares_inf; [exact Hf|]. rewrite add_spec, mul_spec.
    destruct (Prim2SF x) as [s|s| |s m e] eqn:E; try (simpl in Hx; lia).
    rewrite SFmul_square_overflow by exact Hx. now apply SFadd_inf_r.
  - apply IH; try assumption. rewrite add_spec, mul_spec.
    apply SFadd_nonneg; [exact Ha|]. now apply SFmul_square_nonneg, is_finite_fin.
Qed.

Lemma Prim2SF_ten_eps :
  Prim2SF (10 * F.eps) = S754_finite false 5629499534213120 (-101).
Proof. reflexivity. Qed.

Lemma Prim2SF_one : Prim2SF 1 = S754_finite false 4503599627370496 (-52).
Proof. reflexivity. Qed.

(** What the guard lets through is a usable divisor. *)
Lemma handle_zeros_scale_ok (n0 : float) :
  nonneg (Prim2SF n0) = true ->
  scale_ok (Prim2SF (handle_zeros_in_scale n0)) = true.
Proof.
  intros Hn. unfold handle_zeros_in_scale.
  destruct (n0 <? 10 * F.eps) eqn:E; [now rewrite Prim2SF_one|].
  rewrite ltb_spec, Prim2SF_ten_eps in E.
  destruct (Prim2SF n0) as [[]|[]| |[] m e]; try discriminate; try reflexivity.
  unfold SFltb, SFcompare in E. cbn [scale_ok]. apply Z.leb_le.
  destruct (Z.compare_spec e (-101)); lia || discriminate.
Qed.

(** Normalizing a row of finite numbers gives finite numbers. *)
Lemma normalize_row_fin (row : list float) :
  forallb F.is_finite row = true ->
  Forall (fun v => fin (Prim2SF v) = true) (normalize_row row).
Proof.
  intros Hf. unfold normalize_row, row_norm. rewrite dot_self.
  set (d := fold_left (fun acc x => acc + x * x) row 0).
  assert (Hd : nonneg (Prim2SF d) = true) by (now apply sum_squares_nonneg).
  assert (Hs : nonneg (Prim2SF (sqrt d)) = true)
    by (rewrite sqrt_spec; now apply SFsqrt_nonneg).
  pose proof (handle_zeros_scale_ok (sqrt d) Hs) as Hn.
  rewrite Forall_forall. intros v Hv. apply in_map_iff in Hv.
  destruct Hv as (x & <- & Hx).
  assert (Hfx : fin (Prim2SF x) = true).
  { apply is_finite_fin. rewrite forallb_forall in Hf. now apply Hf. }
  rewrite div_spec.
  destruct (Z.le_gt_cases (mag (Prim2SF x)) 512) as [Hm|Hm].
  - now apply SFdiv_fin.
  - assert (Ed : Prim2SF d = S754_infinity false).
    { apply sum_squares_overflow with (x := x); try assumption; [reflexivity|lia]. }
    assert (Es : Prim2SF (sqrt d) = S754_infinity false) by (now rewrite sqrt_spec, Ed).
    assert (En : handle_zeros_in_scale (sqrt d) = sqrt d).
    { unfold handle_zeros_in_scale. rewrite ltb_spec, Es, Prim2SF_ten_eps. reflexivity. }
    rewrite En, Es. now destruct (Prim2SF x) as [s|s| |s m e].
Qed.

Lemma sum_squares_zero (row : list float) (acc : float) :
  forallb F.is_zero row = true -> Prim2SF acc = S754_zero false ->
  Prim2SF (fold_left (fun acc x => acc + x * x) row acc) = S754_zero false.
Proof.
  revert acc. induction row as [|x row IH]; intros acc Hz Ha; simpl; [exact Ha|].
  simpl in Hz. apply andb_true_iff in Hz. destruct Hz as [Hx Hz].
  apply IH; [exact Hz|]. rewrite add_spec, mul_spec, Ha.
  apply is_zero_Prim2SF in Hx. now destruct (Prim2SF x) as [[]|s| |s m e].
Qed.

(** On a null row the norm is 0, the guard replaces it by 1 and the row
    stays null. *)
Lemma handle_zeros_null_row (row : list float) :
  forallb F.is_zero row = true ->
  handle_zeros_in_scale (row_norm row) = 1.
Proof.
  intros Hz. unfold handle_zeros_in_scale, row_norm. rewrite dot_self.
  rewrite ltb_spec, sqrt_spec, sum_squares_zero by (assumption || reflexivity).
  reflexivity.
Qed.

Lemma normalize_row_zero (row : list float) :
  forallb F.is_zero row = true ->
  Forall (fun v => is_zero_sf (Prim2SF v) = true) (normalize_row row).
Proof.
  intros Hz. unfold normalize_row. rewrite handle_zeros_null_row by assumption.
  rewrite Forall_forall. intros v Hv. apply in_map_iff in Hv.
  destruct Hv as (x & <- & Hx). rewrite forallb_forall in Hz.
  specialize (Hz x Hx). apply is_zero_Prim2SF in Hz.
  rewrite div_spec, Prim2SF_one. now destruct (Prim2SF x) as [s|s| |s m e].
Qed.

Lemma dot_zero_l (zs ys : list float) :
  Forall (fun v => is_zero_sf (Prim2SF v) = true) zs ->
  Forall (fun v => fin (Prim2SF v) = true) ys ->
  F.is_zero (F.dot zs ys) = true.
Proof.
  intros Hz Hy. apply is_zero_Prim2SF. unfold F.dot.
  assert (H0 : is_zero_sf (Prim2SF 0) = true) by reflexivity.
  revert H0. generalize 0. revert ys Hy.
  induction Hz as [|z zs Hz _ IH]; intros ys Hy acc Ha; [exact Ha|].
  destruct Hy as [|y ys Hy Hys]; [exact Ha|]. simpl.
  apply IH; [exact Hys|]. rewrite add_spec, mul_spec.
  destruct (Prim2SF acc) as [[]|?| |? ? ?]; try discriminate;
    destruct (Prim2SF z) as [[]|?| |? ? ?]; try discriminate;
    destruct (Prim2SF y) as [[]|?| |[] ? ?]; try discriminate; reflexivity.
Qed.

Lemma dot_zero_r (ys zs : list float) :
  Forall (fun v => fin (Prim2SF v) = true) ys ->
  Forall (fun v => is_zero_sf (Prim2SF v) = true) zs ->
  F.is_zero (F.dot ys zs) = true.
Proof.
  intros Hy Hz. rewrite FloatFacts.dot_comm. now apply dot_zero_l.
Qed.

End CosineFacts.

Lemma nth_error_T (I C : Type) (M : Pandas.DataFrame I C) (j : nat) :
  j < List.length (Pandas.columns M) ->
  nth_error (Pandas.values (Pandas.T M)) j = Some (Pandas.column j (Pandas.values M)).
Proof.
  intros Hj. cbn [Pandas.T Pandas.values]. rewrite nth_error_map.
  rewrite (nth_error_nth' (seq 0 (List.length (Pandas.columns M))) 0%nat)
    by (now rewrite length_seq).
  now rewrite seq_nth.
Qed.

(** C4: when a column of the (zero-filled) rating matrix is all zeros, its
    norm is 0, the guard of [normalize] divides it by 1 instead, and its
    similarity with every column, either way round, is a zero of binary64:
    never NaN, never infinite. *)
Theorem zero_column_similarity
  (ratings : list Pandas.RatingRow) (movies : list Pandas.MovieRow)
  (df : SimilarityFrame) (t b : string) :
  let files := {| u_data := Ok ratings; u_item := Ok movies |} in
  let M := Pandas.fillna 0%float (Pandas.pivot_table (Pandas.merge ratings movies)) in
  Recommender.load_data files = Ok df \/
  (exists data, App.load_data files = Ok (Some (df, data))) ->
  zero_column M t ->
  In b (Pandas.index df) ->
  (exists j, Pandas.index_of t (Pandas.columns M) = Some j /\
     Sklearn.handle_zeros_in_scale
       (Sklearn.row_norm (Pandas.column j (Pandas.values M))) = 1%float) /\
  exists v w,
    Pandas.at_ df t b = Some v /\ Pandas.at_ df b t = Some w /\
    F.is_zero v = true /\ F.is_zero w = true /\
    F.is_finite v = true /\ F.is_finite w = true.
Proof.
  intros files M H (j & Hj & Hz) Hb.
  assert (H' : Recommender.load_data files = Ok df).
  { destruct H as [H|[data H]]; [exact H|]. eapply app_load_data_Ok, H. }
  clear H. apply load_data_Ok in H'.
  destruct H' as (ratings' & movies' & [= <-] & [= <-] & Hfin & _ & ->).
  split; [exists j; split; [exact Hj|now apply handle_zeros_null_row]|].
  cbn [Pandas.index] in Hb.
  change (rating_rows ratings movies) with (Pandas.T M) in *.
  set (cols := Pandas.columns (Pandas.pivot_table (Pandas.merge ratings movies))) in *.
  change (Pandas.columns M) with cols in Hj.
  destruct (index_of_In _ _ Hb) as [jb Hjb].
  pose proof (index_of_lt _ _ _ Hj) as Lj. pose proof (index_of_lt _ _ _ Hjb) as Ljb.
  pose proof (nth_error_T _ _ M j Lj) as Ez. pose proof (nth_error_T _ _ M jb Ljb) as Ey.
  set (z := Pandas.column j (Pandas.values M)) in *.
  set (y := Pandas.column jb (Pandas.values M)) in *.
  assert (Hy : forallb F.is_finite y = true).
  { rewrite forallb_forall in Hfin. apply Hfin. eapply nth_error_In, Ey. }
  set (Xn := Sklearn.normalize (Pandas.values (Pandas.T M))).
  assert (Nz : nth_error Xn j = Some (Sklearn.normalize_row z))
    by (unfold Xn, Sklearn.normalize; now rewrite nth_error_map, Ez).
  assert (Ny : nth_error Xn jb = Some (Sklearn.normalize_row y))
    by (unfold Xn, Sklearn.normalize; now rewrite nth_error_map, Ey).
  destruct (gram_entry Xn j jb _ _ Nz Ny) as (rz & Hrz & Hzy).
  destruct (gram_entry Xn jb j _ _ Ny Nz) as (ry & Hry & Hyz).
  pose proof (dot_zero_l _ _ (normalize_row_zero z Hz) (normalize_row_fin y Hy)) as Zv.
  pose proof (dot_zero_r _ _ (normalize_row_fin y Hy) (normalize_row_zero z Hz)) as Zw.
  eexists. eexists. unfold Pandas.at_.
  cbn [Pandas.index Pandas.columns Pandas.values]. fold Xn.
  rewrite Hj, Hjb, Hrz, Hry, Hzy, Hyz.
  repeat (split; [reflexivity || assumption || now apply is_zero_is_finite|]).
  now apply is_zero_is_finite.
Qed.

Lemma zero_column_similarity_witness :
  let ratings := Samples.zero_rated_ratings in
  let M := Pandas.fillna 0%float (Pandas.pivot_table (Pandas.merge ratings Samples.abc)) in
  exists df,
    Recommender.load_data Samples.zero_rated = Ok df /\
    zero_column M "B"%string /\
    In "A"%string (Pandas.index df) /\
    (exists j, Pandas.index_of "B"%string (Pandas.columns M) = Some j /\
       Sklearn.handle_zeros_in_scale
         (Sklearn.row_norm (Pandas.column j (Pandas.values M))) = 1%float) /\
    exists v w,
      Pandas.at_ df "B"%string "A"%string = Some v /\
      Pandas.at_ df "A"%string "B"%string = Some w /\
      F.is_zero v = true /\ F.is_zero w = true /\
      F.is_finite v = true /\ F.is_finite w = true.
Proof.
  intros ratings M.
  destruct (Recommender.load_data Samples.zero_rated) as [df|e] eqn:E;
    [|vm_compute in E; discriminate E].
  exists df.
  assert (Hz : zero_column M "B"%string) by (exists 1%nat; split; reflexivity).
  assert (Ha : In "A"%string (Pandas.index df)).
  { vm_compute in E. injection E as <-. simpl. tauto. }
  split; [reflexivity|]. split; [exact Hz|]. split; [exact Ha|].
  exact (zero_column_similarity ratings Samples.abc df "B"%string "A"%string
           (or_introl E) Hz Ha).
Defined.

(** Without the guard the textbook formula divides 0 by 0 on such a column. *)
Lemma unguarded_cosine_is_nan :
  let z := [0%float; 0%float] in
  let y := [5%float; 4%float] in
  F.is_nan (F.dot z y / (Sklearn.row_norm z * Sklearn.row_norm y))%float = true.
Proof. reflexivity. Qed.

(** * Further properties of the two scripts *)

(** ** Order of binary64 values *)

Module FloatOrder.

Local Open Scope Z_scope.

Ltac order_cases :=
  repeat match goal with
         | |- context [Pos.compare_cont Eq ?a ?b] =>
             change (Pos.compare_cont Eq a b) with (Pos.compare a b) in *
         | H : context [Pos.compare_cont Eq ?a ?b] |- _ =>
             change (Pos.compare_cont Eq a b) with (Pos.compare a b) in *
         | |- context [(?a ?= ?b)%Z] => destruct (Z.compare_spec a b)
         | H : context [(?a ?= ?b)%Z] |- _ => destruct (Z.compare_spec a b)
         | |- context [(?a ?= ?b)%positive] => destruct (Pos.compare_spec a b)
         | H : context [(?a ?= ?b)%positive] |- _ => destruct (Pos.compare_spec a b)
         end.

Lemma SFleb_trans (x y z : spec_float) :
  SFleb x y = true -> SFleb y z = true -> SFleb x z = true.
Proof.
  unfold SFleb.
  destruct x as [[]|[]| |[] mx ex], y as [[]|[]| |[] my ey], z as [[]|[]| |[] mz ez];
    simpl; try discriminate; try reflexivity; intros H1 H2;
    order_cases; simpl in *; try discriminate; try reflexivity; try lia.
Qed.

Lemma SFltb_not_leb (x y : spec_float) : SFltb x y = true -> SFleb y x = false.
Proof.
  unfold SFltb, SFleb.
  destruct x as [[]|[]| |[] mx ex], y as [[]|[]| |[] my ey];
    simpl; try discriminate; try reflexivity; intros H1;
    order_cases; simpl in *; try discriminate; try reflexivity; try lia.
Qed.

Lemma SFleb_of_not_ltb (x y : spec_float) :
  x <> S754_nan -> y <> S754_nan -> SFltb x y = false -> SFleb y x = true.
Proof.
  unfold SFltb, SFleb.
  destruct x as [[]|[]| |[] mx ex], y as [[]|[]| |[] my ey];
    simpl; try discriminate; try reflexivity; try congruence; intros _ _ H1;
    order_cases; simpl in *; try discriminate; try reflexivity; try lia.
Qed.

Local Open Scope float_scope.

Lemma leb_trans (x y z : float) :
  (x <=? y) = true -> (y <=? z) = true -> (x <=? z) = true.
Proof. rewrite !leb_spec. apply SFleb_trans. Qed.

Lemma ltb_not_leb (x y : float) : (x <? y) = true -> (y <=? x) = false.
Proof. rewrite ltb_spec, leb_spec. apply SFltb_not_leb. Qed.

Lemma leb_of_not_ltb (x y : float) :
  F.is_nan x = false -> F.is_nan y = false -> (x <? y) = false -> (y <=? x) = true.
Proof.
  rewrite !FloatFacts.not_nan_Prim2SF, ltb_spec, leb_spec. apply SFleb_of_not_ltb.
Qed.

Lemma ltb_not_nan (x y : float) :
  (x <? y) = true -> F.is_nan x = false /\ F.is_nan y = false.
Proof.
  rewrite ltb_spec, !FloatFacts.not_nan_Prim2SF. unfold SFltb.
  destruct (Prim2SF x), (Prim2SF y); simpl; intros H; split; congruence.
Qed.

End FloatOrder.

(** [desc] chains: a sorted Series is sorted between any two positions. *)
Lemma desc_trans (p q r : string * float) : desc p q -> desc q r -> desc p r.
Proof.
  intros Hpq [Hr|[Hq Hrq]]; [now left|].
  destruct Hpq as [Hq'|[Hp Hqp]]; [congruence|].
  right. split; [exact Hp|]. eapply FloatOrder.leb_trans; eassumption.
Qed.

Lemma Sorted_desc_strong (l : list (string * float)) :
  Sorted desc l -> StronglySorted desc l.
Proof.
  apply Sorted_StronglySorted. intros p q r. apply desc_trans.
Qed.

(** ** Pieces of lists *)

Section PieceFacts.

Variable A : Type.

Lemma StronglySorted_app_cross (R : A -> A -> Prop) (l1 l2 : list A) :
  StronglySorted R (l1 ++ l2) ->
  forall x y, In x l1 -> In y l2 -> R x y.
Proof.
  induction l1 as [|a l1 IH]; intros S x y Hx Hy; [destruct Hx|].
  simpl in S. inversion S as [|? ? S' Hall]; subst.
  destruct Hx as [->|Hx].
  - rewrite Forall_forall in Hall. apply Hall. apply in_or_app. now right.
  - now apply IH.
Qed.

Lemma Sorted_app_inv (R : A -> A -> Prop) (l1 l2 : list A) :
  Sorted R (l1 ++ l2) -> Sorted R l1 /\ Sorted R l2.
Proof.
  induction l1 as [|a l1 IH]; intros S; [split; [constructor|exact S]|].
  simpl in S. inversion S as [|? ? S' Hd]; subst.
  destruct (IH S') as [S1 S2]. split; [|exact S2].
  constructor; [exact S1|]. destruct l1; [constructor|].
  inversion Hd; subst. now constructor.
Qed.

(** A Python slice [l[1:stop]] with [stop >= 1] cuts [l] in three. *)
Lemma slice_from_1_split (stop : Z) (l : list A) :
  (1 <= stop)%Z ->
  exists st, l = firstn 1 l ++ Py.slice 1 stop l ++ skipn st l /\
             Py.slice 1 stop l = skipn 1 (firstn st l) /\ 1 <= st.
Proof.
  intros H. unfold Py.slice.
  destruct (stop <? 0)%Z eqn:E; [lia|].
  set (st := Z.to_nat (Z.min stop (Z.of_nat (List.length l)))).
  exists (Nat.max 1 st).
  destruct (Nat.le_gt_cases 1 st) as [Hst|Hst].
  - replace (Nat.max 1 st) with st by lia. split; [|split; [reflexivity|lia]].
    rewrite <- (firstn_skipn st l) at 1.
    rewrite <- (firstn_skipn 1 (firstn st l)) at 1.
    rewrite firstn_firstn. replace (Nat.min 1 st) with 1%nat by lia.
    now rewrite <- app_assoc.
  - assert (E0 : st = 0%nat) by lia.
    assert (El : l = []).
    { destruct l; [reflexivity|]. unfold st in E0. simpl List.length in E0. lia. }
    clearbody st. subst. split; [reflexivity|split; [reflexivity|lia]].
Qed.

Lemma map_fst_combine (B : Type) (l : list A) (l' : list B) :
  List.length l <= List.length l' -> map fst (combine l l') = l.
Proof.
  revert l'. induction l as [|a l IH]; intros [|b l'] H; simpl in *; try reflexivity;
    try lia. f_equal. apply IH. lia.
Qed.

Lemma map_snd_combine (B : Type) (l : list A) (l' : list B) :
  List.length l' <= List.length l -> map snd (combine l l') = l'.
Proof.
  revert l'. induction l as [|a l IH]; intros [|b l'] H; simpl in *; try reflexivity;
    try lia. f_equal. apply IH. lia.
Qed.

End PieceFacts.

(** ** A column of the similarity matrix *)

Lemma nth_error_combine (A B : Type) (l : list A) (l' : list B) (i : nat) (a : A) (b : B) :
  nth_error (combine l l') i = Some (a, b) <->
  nth_error l i = Some a /\ nth_error l' i = Some b.
Proof.
  revert l' i. induction l as [|x l IH]; intros [|y l'] [|i]; simpl;
    try (split; [discriminate|intros [? ?]; discriminate]).
  - split; [intros [= -> ->]; now split|intros [[= ->] [= ->]]; reflexivity].
  - apply IH.
Qed.

Section ColumnFacts.

Import Pandas.

Variable df : SimilarityFrame.
Hypothesis Hsm : similarity_matrix df.

Lemma getitem_labels (title : string) (col : Series string) :
  getitem df title = Ok col -> map fst col = index df.
Proof.
  destruct Hsm as [Hax _ Hrows _]. unfold getitem.
  destruct (index_of title (columns df)); [|discriminate].
  intros [= <-]. apply map_fst_combine. unfold column.
  rewrite length_map, Hrows, Hax. lia.
Qed.

(** The entries of column [title] are the cells [df.at[t, title]]. *)
Lemma getitem_entries (title : string) (col : Series string) (t : string) (v : float) :
  getitem df title = Ok col ->
  (In (t, v) col <-> at_ df t title = Some v).
Proof.
  destruct Hsm as [Hax Hnd Hrows Hcols]. unfold getitem, at_.
  destruct (index_of title (columns df)) as [j|] eqn:Ej; [|discriminate].
  intros [= <-]. pose proof (index_of_lt _ _ _ Ej) as Lj.
  assert (Hcell : forall i row, nth_error (values df) i = Some row ->
            nth_error row j = Some (nth j row nan)).
  { intros i row Hrow. apply nth_error_nth'.
    rewrite Forall_forall in Hcols. rewrite (Hcols row); [exact Lj|].
    eapply nth_error_In, Hrow. }
  split.
  - intros Hin. apply In_nth_error in Hin. destruct Hin as [i Hi].
    apply nth_error_combine in Hi. destruct Hi as [Ht Hv].
    unfold column in Hv. rewrite nth_error_map in Hv.
    destruct (nth_error (values df) i) as [row|] eqn:Erow; [|discriminate].
    injection Hv as <-.
    assert (Hi : index_of t (index df) = Some i).
    { destruct (index_of_In t (index df)) as [i' Hi']; [eapply nth_error_In, Ht|].
      pose proof (index_of_Some _ _ _ Hi') as Ht'.
      rewrite <- Hax in Hnd.
      assert (i' = i); [|now subst].
      eapply (proj1 (NoDup_nth_error (index df))).
      - exact Hnd.
      - apply nth_error_Some. congruence.
      - congruence. }
    rewrite Hi, Erow. now apply Hcell with (i := i).
  - destruct (index_of t (index df)) as [i|] eqn:Ei; [|discriminate].
    destruct (nth_error (values df) i) as [row|] eqn:Erow; [|discriminate].
    intros Hv. apply (nth_error_In _ i). apply nth_error_combine. split.
    + now apply index_of_Some.
    + unfold column. rewrite nth_error_map, Erow. simpl. f_equal.
      rewrite (Hcell i row Erow) in Hv. now injection Hv.
Qed.

End ColumnFacts.

(** ** Anatomy of a query *)

Lemma slice_split (A : Type) (start : nat) (stop : Z) (l : list A) :
  exists pre post, l = pre ++ Py.slice start stop l ++ post.
Proof.
  unfold Py.slice.
  set (st := Z.to_nat (if (stop <? 0)%Z
                       then Z.max 0 (Z.of_nat (List.length l) + stop)
                       else Z.min stop (Z.of_nat (List.length l)))).
  exists (firstn start (firstn st l)), (skipn st l).
  now rewrite app_assoc, firstn_skipn, firstn_skipn.
Qed.

(** For a title of the matrix, both functions sort the title's column and
    return a piece [s] of the sorted column. *)
Lemma recommend_movie_piece (srt : Sorter) (df : SimilarityFrame) (title : string) (n : Z) :
  similarity_matrix df -> In title (Pandas.index df) ->
  exists col pre s post,
    Pandas.getitem df title = Ok col /\
    run srt false col = pre ++ s ++ post /\
    App.recommend_movie (run srt) df title n = Ok (App.RSeries s) /\
    Recommender.recommend_movie (run srt) df title n = Ok (map fst s).
Proof.
  intros Hsm Hi. pose proof Hsm as [Hax _ _ _]. rewrite Hax in Hi.
  destruct (recommend_movie_present (run srt) df title n Hi) as (col & Hg & Hr & Ha).
  destruct (slice_split _ 1 (n + 1) (run srt false col)) as (pre & post & E).
  exists col, pre, (Pandas.iloc 1 (n + 1) (run srt false col)), post.
  repeat split; assumption.
Qed.

(** With [n >= 1] the piece starts right after the first sorted entry. *)
Lemma recommend_movie_after_first (srt : Sorter) (df : SimilarityFrame)
      (title : string) (n : Z) :
  similarity_matrix df -> In title (Pandas.index df) -> (1 <= n)%Z ->
  exists col top s rest,
    Pandas.getitem df title = Ok col /\
    run srt false col = [top] ++ s ++ rest /\
    App.recommend_movie (run srt) df title n = Ok (App.RSeries s) /\
    Recommender.recommend_movie (run srt) df title n = Ok (map fst s).
Proof.
  intros Hsm Hi Hn. pose proof Hsm as [Hax _ _ _]. pose proof Hi as Hi'.
  rewrite Hax in Hi.
  destruct (recommend_movie_present (run srt) df title n Hi) as (col & Hg & Hr & Ha).
  destruct (slice_from_1_split _ (n + 1) (run srt false col) ltac:(lia))
    as (st & E & _ & _).
  assert (Hlen : List.length (run srt false col) = List.length (Pandas.index df)).
  { rewrite <- (Permutation_length (run_perm srt col)).
    apply (getitem_length df title col Hsm Hg). }
  destruct (run srt false col) as [|top l] eqn:El.
  { destruct (Pandas.index df); [destruct Hi'|discriminate]. }
  exists col, top, (Pandas.iloc 1 (n + 1) (top :: l)), (skipn st (top :: l)).
  rewrite <- El in *. repeat split; try assumption.
  rewrite El in E at 2. exact E.
Qed.

Section RankingFacts.

Variable srt : Sorter.
Variable df : SimilarityFrame.
Variable title : string.
Hypothesis Hsm : similarity_matrix df.
Hypothesis Hi : In title (Pandas.index df).

Lemma sorted_labels (col : Pandas.Series string) :
  Pandas.getitem df title = Ok col ->
  Permutation (Pandas.index df) (map fst (run srt false col)).
Proof.
  intros Hg. rewrite <- (getitem_labels df Hsm title col Hg).
  apply Permutation_map, run_perm.
Qed.

Lemma sorted_labels_NoDup (col : Pandas.Series string) :
  Pandas.getitem df title = Ok col -> NoDup (map fst (run srt false col)).
Proof.
  intros Hg. eapply Permutation_NoDup; [apply sorted_labels, Hg|].
  destruct Hsm as [Hax Hnd _ _]. now rewrite Hax.
Qed.

End RankingFacts.

(** ** What a query returns *)

(** X1: whatever count is asked for, the titles [recommend_movie] returns
    for a title of the matrix are titles of the matrix, none of them twice. *)
Theorem recommend_movie_distinct_titles
  (srt : Sorter) (df : SimilarityFrame) (title : string) (n : Z) :
  similarity_matrix df -> In title (Pandas.index df) ->
  exists l, Recommender.recommend_movie (run srt) df title n = Ok l /\
            NoDup l /\ incl l (Pandas.index df).
Proof.
  intros Hsm Hi.
  destruct (recommend_movie_piece srt df title n Hsm Hi)
    as (col & pre & s & post & Hg & E & _ & Hr).
  exists (map fst s). split; [exact Hr|].
  pose proof (sorted_labels_NoDup srt df title Hsm col Hg) as Hnd.
  pose proof (sorted_labels srt df title Hsm col Hg) as Hp.
  rewrite E, !map_app in Hnd, Hp. split.
  - apply NoDup_app_remove_l in Hnd. now apply NoDup_app_remove_r in Hnd.
  - intros x Hx. eapply Permutation_in; [symmetry; exact Hp|].
    apply in_or_app. right. apply in_or_app. now left.
Qed.

Lemma recommend_movie_distinct_titles_witness :
  similarity_matrix Samples.abc_df /\ In "C"%string (Pandas.index Samples.abc_df) /\
  exists l, Recommender.recommend_movie (run pandas_sorter) Samples.abc_df "C" 7 = Ok l /\
            NoDup l /\ incl l (Pandas.index Samples.abc_df).
Proof.
  assert (Hi : In "C"%string (Pandas.index Samples.abc_df)) by (simpl; tauto).
  split; [exact abc_similarity_matrix|]. split; [exact Hi|].
  exact (recommend_movie_distinct_titles pandas_sorter Samples.abc_df "C"%string 7
           abc_similarity_matrix Hi).
Defined.

(** X2: for [n >= 1] the app's Series is the part of the title's column that
    comes right after its best-scored entry: the column is, up to order,
    one entry [top], the returned entries [s] and the entries left out
    [rest]; [s] is in descending order of score, [top] is not below any
    other entry, and no entry left out is above a returned one. *)
Theorem recommend_movie_ranking
  (srt : Sorter) (df : SimilarityFrame) (title : string) (n : Z) :
  similarity_matrix df -> In title (Pandas.index df) -> (1 <= n)%Z ->
  exists col top s rest,
    Pandas.getitem df title = Ok col /\
    App.recommend_movie (run srt) df title n = Ok (App.RSeries s) /\
    Permutation col (top :: s ++ rest) /\
    Sorted desc s /\
    (forall e, In e (s ++ rest) -> desc top e) /\
    (forall e e', In e s -> In e' rest -> desc e e').
Proof.
  intros Hsm Hi Hn.
  destruct (recommend_movie_after_first srt df title n Hsm Hi Hn)
    as (col & top & s & rest & Hg & E & Ha & _).
  exists col, top, s, rest. split; [exact Hg|]. split; [exact Ha|].
  pose proof (run_desc srt col) as S. rewrite E in S.
  pose proof (Sorted_desc_strong _ S) as SS.
  split; [rewrite (run_perm srt col), E; reflexivity|].
  split; [|split].
  - apply Sorted_app_inv in S. destruct S as [_ S].
    now apply Sorted_app_inv in S.
  - intros e He. apply (StronglySorted_app_cross _ desc [top] (s ++ rest) SS);
      [now left|exact He].
  - intros e e' He He'. simpl in SS. inversion SS as [|? ? SS' _]; subst.
    now apply (StronglySorted_app_cross _ desc s rest SS').
Qed.

Lemma recommend_movie_ranking_witness :
  similarity_matrix Samples.abc_df /\ In "A"%string (Pandas.index Samples.abc_df) /\
  (1 <= 1)%Z /\
  exists col top s rest,
    Pandas.getitem Samples.abc_df "A"%string = Ok col /\
    App.recommend_movie (run pandas_sorter) Samples.abc_df "A" 1 = Ok (App.RSeries s) /\
    Permutation col (top :: s ++ rest) /\
    Sorted desc s /\
    (forall e, In e (s ++ rest) -> desc top e) /\
    (forall e e', In e s -> In e' rest -> desc e e').
Proof.
  assert (Hi : In "A"%string (Pandas.index Samples.abc_df)) by (simpl; tauto).
  assert (Hn : (1 <= 1)%Z) by lia.
  split; [exact abc_similarity_matrix|]. split; [exact Hi|]. split; [exact Hn|].
  exact (recommend_movie_ranking pandas_sorter Samples.abc_df "A"%string 1
           abc_similarity_matrix Hi Hn).
Defined.

(** X3: every (title, score) pair the app returns for a query is a cell of
    the similarity matrix: the score is the entry at row [t], column
    [title]. *)
Theorem recommend_movie_scores
  (srt : Sorter) (df : SimilarityFrame) (title : string) (n : Z) :
  similarity_matrix df -> In title (Pandas.index df) ->
  exists s,
    App.recommend_movie (run srt) df title n = Ok (App.RSeries s) /\
    forall t v, In (t, v) s -> Pandas.at_ df t title = Some v.
Proof.
  intros Hsm Hi.
  destruct (recommend_movie_piece srt df title n Hsm Hi)
    as (col & pre & s & post & Hg & E & Ha & _).
  exists s. split; [exact Ha|]. intros t v Hin.
  apply (getitem_entries df Hsm title col t v Hg).
  eapply Permutation_in; [symmetry; apply (run_perm srt col)|].
  rewrite E. apply in_or_app. right. apply in_or_app. now left.
Qed.

Lemma recommend_movie_scores_witness :
  similarity_matrix Samples.abc_df /\ In "B"%string (Pandas.index Samples.abc_df) /\
  exists s,
    App.recommend_movie (run pandas_sorter) Samples.abc_df "B" 3 = Ok (App.RSeries s) /\
    forall t v, In (t, v) s -> Pandas.at_ Samples.abc_df t "B"%string = Some v.
Proof.
  assert (Hi : In "B"%string (Pandas.index Samples.abc_df)) by (simpl; tauto).
  split; [exact abc_similarity_matrix|]. split; [exact Hi|].
  exact (recommend_movie_scores pandas_sorter Samples.abc_df "B"%string 3
           abc_similarity_matrix Hi).
Defined.

(** X4: when the score of the query title with itself is strictly above its
    score with every other title, the first sorted entry is the query title
    and [recommend_movie] does not return it. *)
Theorem recommend_movie_excludes_strict_best
  (srt : Sorter) (df : SimilarityFrame) (title : string) (n : Z) (self : float) :
  similarity_matrix df -> In title (Pandas.index df) -> (1 <= n)%Z ->
  Pandas.at_ df title title = Some self ->
  (forall t v, t <> title -> Pandas.at_ df t title = Some v -> (v <? self)%float = true) ->
  exists l, Recommender.recommend_movie (run srt) df title n = Ok l /\ ~ In title l.
Proof.
  intros Hsm Hi Hn Hself Hbest.
  destruct (recommend_movie_after_first srt df title n Hsm Hi Hn)
    as (col & [t0 v0] & s & rest & Hg & E & _ & Hr).
  exists (map fst s). split; [exact Hr|].
  pose proof (sorted_labels_NoDup srt df title Hsm col Hg) as Hnd.
  rewrite E in Hnd. simpl in Hnd. inversion Hnd as [|? ? Hnot _]; subst.
  rewrite map_app in Hnot.
  destruct (string_dec t0 title) as [->|Hne].
  - intros Hin. apply Hnot. apply in_or_app. now left.
  - exfalso.
    assert (H0 : In (t0, v0) col).
    { eapply Permutation_in; [symmetry; apply (run_perm srt col)|]. rewrite E. now left. }
    apply (getitem_entries df Hsm title col t0 v0 Hg) in H0.
    pose proof (Hbest t0 v0 Hne H0) as Hlt.
    assert (Hs : In (title, self) (run srt false col)).
    { eapply Permutation_in; [apply (run_perm srt col)|].
      now apply (getitem_entries df Hsm title col title self Hg). }
    rewrite E in Hs. destruct Hs as [Hs|Hs]; [congruence|].
    pose proof (run_desc srt col) as S. rewrite E in S.
    apply Sorted_desc_strong in S.
    pose proof (StronglySorted_app_cross _ desc [(t0, v0)] (s ++ rest) S
                  (t0, v0) (title, self) (or_introl eq_refl) Hs) as Hd.
    destruct (FloatOrder.ltb_not_nan _ _ Hlt) as [_ Hnn].
    apply FloatOrder.ltb_not_leb in Hlt.
    destruct Hd as [Hd|[_ Hd]]; simpl in Hd; congruence.
Qed.

Lemma abc_column_A (t : string) (v : float) :
  t <> "A"%string -> Pandas.at_ Samples.abc_df t "A"%string = Some v ->
  (v <? 1)%float = true.
Proof.
  intros Hne Hat.
  assert (Hin : In (t, v) [("A"%string, 1%float);
                           ("B"%string, 0x1.8fce095e0c6d5p-1%float);
                           ("C"%string, 0%float)]).
  { apply (getitem_entries Samples.abc_df abc_similarity_matrix "A"%string _ t v
             eq_refl) in Hat. exact Hat. }
  destruct Hin as [E|[E|[E|[]]]]; injection E as <- <-; [congruence| |]; reflexivity.
Qed.

Lemma recommend_movie_excludes_strict_best_witness :
  similarity_matrix Samples.abc_df /\ In "A"%string (Pandas.index Samples.abc_df) /\
  (1 <= 5)%Z /\
  Pandas.at_ Samples.abc_df "A"%string "A"%string = Some 1%float /\
  exists l, Recommender.recommend_movie (run pandas_sorter) Samples.abc_df "A" 5 = Ok l /\
            ~ In "A"%string l.
Proof.
  assert (Hi : In "A"%string (Pandas.index Samples.abc_df)) by (simpl; tauto).
  assert (Hn : (1 <= 5)%Z) by lia.
  assert (Hs : Pandas.at_ Samples.abc_df "A"%string "A"%string = Some 1%float)
    by reflexivity.
  split; [exact abc_similarity_matrix|]. split; [exact Hi|]. split; [exact Hn|].
  split; [exact Hs|].
  exact (recommend_movie_excludes_strict_best pandas_sorter Samples.abc_df "A"%string 5
           1%float abc_similarity_matrix Hi Hn Hs abc_column_A).
Defined.

(** X5: a count of 0 or -1 gives no recommendation; from -2 downward the
    slice [1:n+1] counts its end from the back, and the [k + n] entries
    between the first sorted entry and the last [-n-1] ones are returned
    (none when [k + n <= 0]).  No count raises. *)
Theorem recommend_movie_nonpositive
  (srt : Sorter) (df : SimilarityFrame) (title : string) (n : Z) :
  similarity_matrix df -> In title (Pandas.index df) -> (n <= 0)%Z ->
  exists l, Recommender.recommend_movie (run srt) df title n = Ok l /\
            List.length l
            = if (-1 <=? n)%Z then 0
              else Z.to_nat (Z.of_nat (List.length (Pandas.index df)) + n).
Proof.
  intros Hsm Hi Hn. pose proof Hsm as [Hax _ _ _]. rewrite Hax in Hi.
  destruct (recommend_movie_present (run srt) df title n Hi) as (col & Hg & Hr & _).
  eexists. split; [exact Hr|].
  unfold Pandas.index_tolist, Pandas.iloc, Py.slice.
  rewrite length_map, length_skipn, length_firstn.
  rewrite <- (Permutation_length (run_perm srt col)).
  rewrite (getitem_length df title col Hsm Hg).
  destruct (n + 1 <? 0)%Z eqn:E1; destruct (-1 <=? n)%Z eqn:E2; lia.
Qed.

Lemma recommend_movie_nonpositive_witness :
  similarity_matrix Samples.abc_df /\ In "A"%string (Pandas.index Samples.abc_df) /\
  (-2 <= 0)%Z /\
  exists l, Recommender.recommend_movie (run pandas_sorter) Samples.abc_df "A" (-2) = Ok l /\
            List.length l = 1.
Proof.
  assert (Hi : In "A"%string (Pandas.index Samples.abc_df)) by (simpl; tauto).
  assert (Hn : (-2 <= 0)%Z) by lia.
  split; [exact abc_similarity_matrix|]. split; [exact Hi|]. split; [exact Hn|].
  exact (recommend_movie_nonpositive pandas_sorter Samples.abc_df "A"%string (-2)
           abc_similarity_matrix Hi Hn).
Defined.

(** ** The merged frame *)

Section MergeShape.

Import Pandas.

Lemma filter_unique_length (movies : list MovieRow) (x : Z) :
  NoDup (map m_movie_id movies) ->
  List.length (filter (fun m => Z.eqb x (m_movie_id m)) movies)
  = if in_dec Z.eq_dec x (map m_movie_id movies) then 1 else 0.
Proof.
  induction movies as [|m movies IH]; intros Hnd; [reflexivity|].
  simpl map in *. inversion Hnd as [|? ? Hn Hnd']; subst.
  specialize (IH Hnd'). simpl filter.
  destruct (Z.eqb_spec x (m_movie_id m)) as [->|Hne].
  - simpl List.length. rewrite IH.
    destruct (in_dec Z.eq_dec (m_movie_id m) (map m_movie_id movies)); [contradiction|].
    destruct (in_dec Z.eq_dec (m_movie_id m) (m_movie_id m :: map m_movie_id movies))
      as [_|Hx]; [reflexivity|]. exfalso. apply Hx. now left.
  - rewrite IH.
    destruct (in_dec Z.eq_dec x (map m_movie_id movies)) as [Hi|Hi];
      destruct (in_dec Z.eq_dec x (m_movie_id m :: map m_movie_id movies)) as [Hj|Hj];
      try reflexivity.
    + exfalso. apply Hj. now right.
    + exfalso. destruct Hj as [Hj|Hj]; [congruence|contradiction].
Qed.

Lemma merge_cons (r : RatingRow) (ratings : list RatingRow) (movies : list MovieRow) :
  merge (r :: ratings) movies
  = map (joined r) (filter (fun m => Z.eqb (r_movie_id r) (m_movie_id m)) movies)
    ++ merge ratings movies.
Proof. reflexivity. Qed.

Lemma filter_count (movies : list MovieRow) (x : Z) :
  List.length (filter (fun m => Z.eqb x (m_movie_id m)) movies)
  = count_occ Z.eq_dec (map m_movie_id movies) x.
Proof.
  induction movies as [|m movies IH]; [reflexivity|]. simpl filter. simpl map.
  destruct (Z.eqb_spec x (m_movie_id m)) as [E|E].
  - rewrite count_occ_cons_eq by congruence. simpl List.length. now rewrite IH.
  - rewrite count_occ_cons_neq by congruence. exact IH.
Qed.

Lemma merge_length (ratings : list RatingRow) (movies : list MovieRow) :
  List.length (merge ratings movies)
  = list_sum (map (fun r => count_occ Z.eq_dec (map m_movie_id movies) (r_movie_id r))
                  ratings).
Proof.
  induction ratings as [|r ratings IH]; [reflexivity|].
  rewrite merge_cons, length_app, length_map, filter_count, IH. reflexivity.
Qed.

Lemma rating_of_joined (r : RatingRow) (m : MovieRow) : rating_of (joined r m) = r.
Proof. now destruct r. Qed.

Lemma merge_rating_lines (ratings : list RatingRow) (movies : list MovieRow) :
  NoDup (map m_movie_id movies) ->
  (forall r, In r ratings -> In (r_movie_id r) (map m_movie_id movies)) ->
  map rating_of (merge ratings movies) = ratings.
Proof.
  intros Hnd. induction ratings as [|r ratings IH]; intros Hall; [reflexivity|].
  rewrite merge_cons, map_app, IH by (intros r' Hr'; apply Hall; now right).
  pose proof (filter_unique_length movies (r_movie_id r) Hnd) as Hl.
  destruct (in_dec Z.eq_dec (r_movie_id r) (map m_movie_id movies)) as [_|Hn];
    [|exfalso; apply Hn, Hall; now left].
  destruct (filter (fun m => Z.eqb (r_movie_id r) (m_movie_id m)) movies)
    as [|m [|m' l]]; try discriminate Hl.
  cbn [map app]. now rewrite rating_of_joined.
Qed.

End MergeShape.

(** X6: the merged frame is the inner join on [movie_id].  Its rows are
    the pairs of a rating line and a movie entry with the same id; every
    rating line gives as many rows as its movie id has entries in [u.item]
    (none for an id that is not listed, two for an id listed twice); and
    when every rated id is listed exactly once, the merged frame is the
    rating table, line for line and in order, with the title added. *)
Theorem merge_inner_join
  (ratings : list Pandas.RatingRow) (movies : list Pandas.MovieRow) :
  (forall d, In d (Pandas.merge ratings movies) <->
             exists r m, In r ratings /\ In m movies /\
                         Pandas.r_movie_id r = Pandas.m_movie_id m /\ d = joined r m) /\
  List.length (Pandas.merge ratings movies)
  = list_sum (map (fun r => count_occ Z.eq_dec (map Pandas.m_movie_id movies)
                                      (Pandas.r_movie_id r)) ratings) /\
  (NoDup (map Pandas.m_movie_id movies) ->
   (forall r, In r ratings ->
      In (Pandas.r_movie_id r) (map Pandas.m_movie_id movies)) ->
   map rating_of (Pandas.merge ratings movies) = ratings).
Proof.
  split; [|split; [apply merge_length|apply merge_rating_lines]].
  intros d. unfold Pandas.merge. rewrite in_flat_map. split.
  - intros (r & Hr & Hd). apply in_map_iff in Hd. destruct Hd as (m & <- & Hm).
    apply filter_In in Hm. destruct Hm as [Hm E]. apply Z.eqb_eq in E.
    exists r, m. repeat split; assumption.
  - intros (r & m & Hr & Hm & E & ->). exists r. split; [exact Hr|].
    apply in_map_iff. exists m. split; [reflexivity|].
    apply filter_In. split; [exact Hm|]. now apply Z.eqb_eq.
Qed.

Lemma merge_inner_join_witness :
  let twice := [Samples.item 1 "A"; Samples.item 1 "A again"]%string in
  let lines := [Samples.obs 1 1 5; Samples.obs 1 3 2] in
  List.length (Pandas.merge lines twice) = 2 /\
  NoDup (map Pandas.m_movie_id Samples.abc) /\
  (forall r, In r Samples.zero_rated_ratings ->
     In (Pandas.r_movie_id r) (map Pandas.m_movie_id Samples.abc)) /\
  map rating_of (Pandas.merge Samples.zero_rated_ratings Samples.abc)
  = Samples.zero_rated_ratings.
Proof.
  intros twice lines.
  assert (Hnd : NoDup (map Pandas.m_movie_id Samples.abc)).
  { repeat constructor; simpl; intuition discriminate. }
  assert (Hall : forall r, In r Samples.zero_rated_ratings ->
                   In (Pandas.r_movie_id r) (map Pandas.m_movie_id Samples.abc)).
  { intros r [<-|[<-|[<-|[<-|[<-|[]]]]]]; simpl; tauto. }
  split; [exact (proj1 (proj2 (merge_inner_join lines twice)))|].
  split; [exact Hnd|]. split; [exact Hall|].
  exact (proj2 (proj2 (merge_inner_join Samples.zero_rated_ratings Samples.abc))
               Hnd Hall).
Defined.

(** X7: when no movie id is listed twice in [u.item], the "Total Ratings"
    figure of the sidebar ([len(movie_data)]) is at most the number of
    rating lines, and equals it when every rated movie id is listed. *)
Theorem merge_total_ratings
  (ratings : list Pandas.RatingRow) (movies : list Pandas.MovieRow) :
  NoDup (map Pandas.m_movie_id movies) ->
  AppPage.total_ratings (AppPage.dataset_info (Pandas.merge ratings movies))
  <= List.length ratings /\
  ((forall r, In r ratings ->
      In (Pandas.r_movie_id r) (map Pandas.m_movie_id movies)) ->
   AppPage.total_ratings (AppPage.dataset_info (Pandas.merge ratings movies))
   = List.length ratings).
Proof.
  intros Hnd. cbn [AppPage.dataset_info AppPage.total_ratings].
  induction ratings as [|r ratings [IHle IHeq]]; [split; reflexivity|].
  rewrite merge_cons, length_app, length_map, (filter_unique_length movies _ Hnd).
  simpl List.length. split.
  - destruct (in_dec Z.eq_dec _ _); lia.
  - intros Hall.
    destruct (in_dec Z.eq_dec (Pandas.r_movie_id r) (map Pandas.m_movie_id movies))
      as [_|Hn].
    + rewrite IHeq; [reflexivity|]. intros r' Hr'. apply Hall. now right.
    + exfalso. apply Hn, Hall. now left.
Qed.

Lemma merge_total_ratings_witness :
  NoDup (map Pandas.m_movie_id Samples.abc) /\
  (forall r, In r Samples.zero_rated_ratings ->
     In (Pandas.r_movie_id r) (map Pandas.m_movie_id Samples.abc)) /\
  AppPage.total_ratings
    (AppPage.dataset_info (Pandas.merge Samples.zero_rated_ratings Samples.abc))
  = 5.
Proof.
  assert (Hnd : NoDup (map Pandas.m_movie_id Samples.abc)).
  { repeat constructor; simpl; intuition discriminate. }
  assert (Hall : forall r, In r Samples.zero_rated_ratings ->
                   In (Pandas.r_movie_id r) (map Pandas.m_movie_id Samples.abc)).
  { intros r [<-|[<-|[<-|[<-|[<-|[]]]]]]; simpl; tauto. }
  split; [exact Hnd|]. split; [exact Hall|].
  exact (proj2 (merge_total_ratings Samples.zero_rated_ratings Samples.abc Hnd) Hall).
Defined.

(** ** The rating matrix *)

Section PivotShape.

Import Pandas.

Lemma string_leb_total (a b : string) : String.leb a b = false -> String.leb b a = true.
Proof.
  unfold String.leb. rewrite (String.compare_antisym a b).
  now destruct (String.compare b a).
Qed.

Lemma sort_unique_sorted (A : Type) (eq_dec : forall x y : A, {x = y} + {x <> y})
      (leb : A -> A -> bool) (l : list A) :
  (forall a b, leb a b = false -> leb b a = true) ->
  Sorted (fun a b => leb a b = true) (sort_unique eq_dec leb l).
Proof.
  intros tot. unfold sort_unique.
  apply isort_sorted with (P := fun _ => True); [auto|].
  apply Forall_forall. auto.
Qed.

Lemma fold_mean_step_nan (vals : list float) (a : MeanAcc) :
  (forall v, In v vals -> F.is_nan v = true) -> fold_left mean_step vals a = a.
Proof.
  revert a. induction vals as [|v vals IH]; intros a H; [reflexivity|].
  simpl. unfold mean_step at 2. rewrite (H v (or_introl eq_refl)).
  apply IH. intros w Hw. apply H. now right.
Qed.

(** A defined mean comes from at least one rating that is a number. *)
Lemma group_mean_defined (vals : list float) :
  F.is_nan (group_mean vals) = false -> exists v, In v vals /\ F.is_nan v = false.
Proof.
  intros H. destruct (existsb (fun v => negb (F.is_nan v)) vals) eqn:E.
  - apply existsb_exists in E. destruct E as (v & Hv & Hn).
    exists v. split; [exact Hv|]. now apply negb_true_iff.
  - exfalso. unfold group_mean in H. rewrite fold_mean_step_nan in H; [discriminate H|].
    intros v Hv. destruct (F.is_nan v) eqn:Ev; [reflexivity|].
    assert (existsb (fun v => negb (F.is_nan v)) vals = true); [|congruence].
    apply existsb_exists. exists v. split; [exact Hv|]. now rewrite Ev.
Qed.

Lemma in_agged (data : list DataRow) (u : Z) (t : string) (v : float) :
  In ((u, t), v) (agged data) ->
  F.is_nan (group_mean (group_values data (u, t))) = false.
Proof.
  intros Hin.
  assert (Hl : lookup (u, t) (agged data) = Some v).
  { assert (Hnd : NoDup (map fst (agged data))).
    { unfold agged. apply NoDup_map_inv with (f := fun k : key => k).
      rewrite map_id.
      assert (G : forall (m : list (key * float)),
                NoDup (map fst m) ->
                NoDup (map fst (filter (fun p => negb (F.is_nan (snd p))) m))).
      { induction m as [|p m IH]; intros Hm; [constructor|].
        simpl in *. inversion Hm as [|? ? Hn Hm']; subst.
        destruct (negb (F.is_nan (snd p))); [|now apply IH].
        simpl. constructor; [|now apply IH].
        intros Hx. apply Hn. apply in_map_iff in Hx. destruct Hx as (q & Hq & Hx).
        apply filter_In in Hx. apply in_map_iff. exists q. tauto. }
      apply G. unfold groupby_mean. rewrite map_map. simpl.
      apply group_pass_keys_NoDup. }
    clear - Hin Hnd. induction (agged data) as [|[k w] m IH]; [destruct Hin|].
    simpl in *. inversion Hnd as [|? ? Hn Hnd']; subst.
    destruct Hin as [E|Hin].
    - injection E as -> ->. now rewrite key_eqb_refl.
    - destruct (key_eqb_spec (u, t) k) as [<-|Hne]; [|now apply IH].
      exfalso. apply Hn. apply in_map_iff. now exists ((u, t), v). }
  rewrite lookup_agged in Hl. now destruct (F.is_nan _).
Qed.

Lemma pivot_table_columns_sorted (data : list DataRow) :
  Sorted (fun a b => String.leb a b = true) (columns (pivot_table data)).
Proof. apply sort_unique_sorted, string_leb_total. Qed.

End PivotShape.

(** X8: the pivot table is rectangular with distinct labels in ascending
    order: no user labels two rows, no title two columns, users ascend,
    titles ascend in byte order, and every row has one cell per column. *)
Theorem pivot_table_shape (data : list Pandas.DataRow) :
  let M := Pandas.pivot_table data in
  NoDup (Pandas.index M) /\ NoDup (Pandas.columns M) /\
  Sorted (fun a b => (a <= b)%Z) (Pandas.index M) /\
  Sorted (fun a b => String.leb a b = true) (Pandas.columns M) /\
  List.length (Pandas.values M) = List.length (Pandas.index M) /\
  Forall (fun row => List.length row = List.length (Pandas.columns M)) (Pandas.values M).
Proof.
  intros M. unfold M, Pandas.pivot_table. cbn [Pandas.index Pandas.columns Pandas.values].
  split; [apply sort_unique_NoDup|]. split; [apply sort_unique_NoDup|]. split; [|split].
  - eapply Sorted_ind with (P := fun l => Sorted (fun a b => (a <= b)%Z) l);
      [constructor| |apply (sort_unique_sorted Z Z.eq_dec Z.leb)].
    + intros a l _ IH Hd. constructor; [exact IH|].
      destruct Hd; constructor. now apply Z.leb_le.
    + intros a b E. apply Z.leb_le. apply Z.leb_gt in E. lia.
  - apply pivot_table_columns_sorted.
  - split; [apply length_map|].
    apply Forall_forall. intros row Hrow. apply in_map_iff in Hrow.
    destruct Hrow as (u & <- & _). apply length_map.
Qed.

(** X9: a user labels a row of the pivot table exactly when the ratings of
    that user for some title have a defined mean, a title labels a column
    exactly when some user's ratings of it do, and behind every defined mean
    there is a row of the merged frame for that user and title whose rating
    is a number. *)
Theorem pivot_table_labels (data : list Pandas.DataRow) (u : Z) (t : string) :
  let M := Pandas.pivot_table data in
  let rated u t :=
    F.is_nan (Pandas.group_mean (Pandas.group_values data (u, t))) = false in
  (In u (Pandas.index M) <-> exists t', rated u t') /\
  (In t (Pandas.columns M) <-> exists u', rated u' t) /\
  (rated u t ->
   exists d, In d data /\ Pandas.user_id d = u /\ Pandas.title d = t /\
             F.is_nan (Pandas.rating d) = false).
Proof.
  intros M rated. unfold M, rated. split; [|split].
  - split.
    + intros Hin. apply pivot_table_index in Hin. destruct Hin as (t' & v & Hin).
      exists t'. eapply in_agged, Hin.
    + intros (t' & Hr). now apply (pivot_table_rated data u t').
  - split.
    + intros Hin. apply pivot_table_columns in Hin. destruct Hin as (u' & v & Hin).
      exists u'. eapply in_agged, Hin.
    + intros (u' & Hr). now apply (pivot_table_rated data u' t).
  - intros Hr. apply group_mean_defined in Hr. destruct Hr as (v & Hv & Hn).
    unfold Pandas.group_values in Hv. apply in_map_iff in Hv.
    destruct Hv as (d & <- & Hd). apply filter_In in Hd. destruct Hd as [Hd Hk].
    destruct (key_eqb_spec (u, t) (Pandas.key_of d)) as [E|]; [|discriminate].
    injection E as -> ->. exists d. repeat split; assumption.
Qed.

Lemma pivot_table_labels_witness :
  let data := Pandas.merge Samples.remake_ratings Samples.remake_movies in
  F.is_nan (Pandas.group_mean (Pandas.group_values data (2%Z, "A"%string))) = false /\
  In 2%Z (Pandas.index (Pandas.pivot_table data)) /\
  In "A"%string (Pandas.columns (Pandas.pivot_table data)) /\
  exists d, In d data /\ Pandas.user_id d = 2%Z /\ Pandas.title d = "A"%string /\
            F.is_nan (Pandas.rating d) = false.
Proof.
  intros data.
  assert (Hr : F.is_nan (Pandas.group_mean (Pandas.group_values data (2%Z, "A"%string)))
               = false) by (vm_compute; reflexivity).
  destruct (pivot_table_labels data 2%Z "A"%string) as (H1 & H2 & H3).
  split; [exact Hr|].
  split; [exact (proj2 H1 (ex_intro _ "A"%string Hr))|].
  split; [exact (proj2 H2 (ex_intro _ 2%Z Hr))|].
  exact (H3 Hr).
Defined.

(** X10: after [fillna(0)] the cell of a labelled (user, title) pair is the
    mean of the pair's ratings when that mean is defined and 0 otherwise; in
    particular a pair without any observation gets 0, and no cell of the
    filled matrix is NaN. *)
Theorem fillna_pivot_cell (data : list Pandas.DataRow) (u : Z) (t : string) :
  let M := Pandas.pivot_table data in
  let m := Pandas.group_mean (Pandas.group_values data (u, t)) in
  In u (Pandas.index M) -> In t (Pandas.columns M) ->
  Pandas.at_ (Pandas.fillna 0%float M) u t = Some (if F.is_nan m then 0%float else m) /\
  (Pandas.group_values data (u, t) = [] ->
   Pandas.at_ (Pandas.fillna 0%float M) u t = Some 0%float) /\
  (forall u' t' v, Pandas.at_ (Pandas.fillna 0%float M) u' t' = Some v ->
                   F.is_nan v = false).
Proof.
  intros M m Hu Ht. unfold M, m. split; [|split].
  - now rewrite at_fillna, pivot_table_cell.
  - intros E. rewrite at_fillna, pivot_table_cell by assumption. now rewrite E.
  - intros u' t' v. rewrite at_fillna.
    destruct (Pandas.at_ _ u' t') as [x|]; [|discriminate].
    cbn [option_map]. intros [= <-]. destruct (F.is_nan x) eqn:E; [reflexivity|exact E].
Qed.

Lemma fillna_pivot_cell_witness :
  let data := Pandas.merge Samples.remake_ratings Samples.remake_movies in
  In 2%Z (Pandas.index (Pandas.pivot_table data)) /\
  In "A"%string (Pandas.columns (Pandas.pivot_table data)) /\
  In "B"%string (Pandas.columns (Pandas.pivot_table data)) /\
  Pandas.at_ (Pandas.fillna 0%float (Pandas.pivot_table data)) 2%Z "A"%string
  = Some 4%float /\
  Pandas.group_values data (1%Z, "B"%string) = [] /\
  Pandas.at_ (Pandas.fillna 0%float (Pandas.pivot_table data)) 1%Z "B"%string
  = Some 0%float.
Proof.
  intros data.
  assert (H1 : In 1%Z (Pandas.index (Pandas.pivot_table data))) by (vm_compute; tauto).
  assert (H2 : In 2%Z (Pandas.index (Pandas.pivot_table data))) by (vm_compute; tauto).
  assert (HA : In "A"%string (Pandas.columns (Pandas.pivot_table data)))
    by (vm_compute; tauto).
  assert (HB : In "B"%string (Pandas.columns (Pandas.pivot_table data)))
    by (vm_compute; tauto).
  assert (E : Pandas.group_values data (1%Z, "B"%string) = []) by reflexivity.
  split; [exact H2|]. split; [exact HA|]. split; [exact HB|].
  split; [exact (proj1 (fillna_pivot_cell data 2%Z "A"%string H2 HA))|].
  split; [exact E|].
  exact (proj1 (proj2 (fillna_pivot_cell data 1%Z "B"%string H1 HB)) E).
Defined.

(** ** Outcomes of [load_data] *)

Section LoadOutcomes.

Import Pandas Sklearn.

Lemma pivot_axes_nonempty (data : list DataRow) :
  columns (pivot_table data) <> [] -> index (pivot_table data) <> [].
Proof.
  intros Hc. destruct (columns (pivot_table data)) as [|t ts] eqn:E; [congruence|].
  assert (Ht : In t (columns (pivot_table data))) by (rewrite E; now left).
  apply pivot_table_columns in Ht. destruct Ht as (u & v & Hin).
  assert (Hu : In u (index (pivot_table data))) by (apply pivot_table_index; eauto).
  intros E0. rewrite E0 in Hu. destruct Hu.
Qed.

Lemma cosine_similarity_raises (I C : Type) (X : DataFrame I C) (e : Py.exn) :
  cosine_similarity X = Raise e -> e = Py.ValueError.
Proof.
  unfold cosine_similarity, check_array.
  destruct (negb _); [now intros [= <-]|].
  destruct (Nat.ltb _ 1); [now intros [= <-]|].
  destruct (Nat.ltb _ 1); [now intros [= <-]|]. discriminate.
Qed.

(** The two [load_data] functions run the same computation. *)
Lemma app_load_data_cases (files : Files) :
  match Recommender.load_data files with
  | Ok df => exists data, App.load_data files = Ok (Some (df, data))
  | Raise Py.FileNotFoundError => App.load_data files = Ok None
  | Raise e => App.load_data files = Raise e
  end.
Proof.
  unfold Recommender.load_data, App.load_data.
  destruct (u_data files) as [ratings|[]]; cbn [Py.bind]; try reflexivity;
    destruct (u_item files) as [movies|[]]; cbn [Py.bind]; try reflexivity.
  destruct (cosine_similarity _) as [K|e] eqn:E; cbn [Py.bind]; [eauto|].
  apply cosine_similarity_raises in E. now subst.
Qed.

Lemma load_data_fails (ratings : list RatingRow) (movies : list MovieRow) :
  forallb (forallb F.is_finite) (values (rating_rows ratings movies)) = false \/
  columns (pivot_table (merge ratings movies)) = [] ->
  Recommender.load_data {| u_data := Ok ratings; u_item := Ok movies |}
  = Raise Py.ValueError.
Proof.
  intros H. unfold Recommender.load_data. cbn [u_data u_item Py.bind].
  fold (rating_rows ratings movies). unfold cosine_similarity, check_array.
  destruct (forallb (forallb F.is_finite) (values (rating_rows ratings movies)));
    cbn [negb]; [|reflexivity].
  destruct H as [H|H]; [discriminate|].
  change (index (rating_rows ratings movies))
    with (columns (pivot_table (merge ratings movies))).
  now rewrite H.
Qed.

End LoadOutcomes.

(** X11: with both files read, [load_data] either returns a table or raises
    [ValueError]; it returns one exactly when the rating matrix has at least
    one column and only finite cells. *)
Theorem load_data_outcome
  (ratings : list Pandas.RatingRow) (movies : list Pandas.MovieRow) :
  let files := {| u_data := Ok ratings; u_item := Ok movies |} in
  let nonempty := Pandas.columns (Pandas.pivot_table (Pandas.merge ratings movies)) <> [] in
  let finite :=
    forallb (forallb F.is_finite) (Pandas.values (rating_rows ratings movies)) = true in
  (Recommender.load_data files = Raise Py.ValueError \/
   exists df, Recommender.load_data files = Ok df) /\
  ((exists df, Recommender.load_data files = Ok df) <-> nonempty /\ finite).
Proof.
  intros files nonempty finite. unfold files, nonempty, finite.
  assert (Hok : Pandas.columns (Pandas.pivot_table (Pandas.merge ratings movies)) <> [] ->
                forallb (forallb F.is_finite) (Pandas.values (rating_rows ratings movies))
                = true ->
                exists df, Recommender.load_data
                             {| u_data := Ok ratings; u_item := Ok movies |} = Ok df).
  { intros Hc Hf. eexists. apply load_data_succeeds; [exact Hf| |exact Hc].
    now apply pivot_axes_nonempty. }
  split.
  - destruct (forallb (forallb F.is_finite) (Pandas.values (rating_rows ratings movies)))
      eqn:Ef; [|left; apply load_data_fails; now left].
    destruct (Pandas.columns (Pandas.pivot_table (Pandas.merge ratings movies)))
      as [|t ts] eqn:Ec; [left; apply load_data_fails; now right|].
    right. apply Hok; [discriminate|reflexivity].
  - split.
    + intros [df H]. apply load_data_Ok in H.
      destruct H as (r' & m' & [= <-] & [= <-] & Hf & Hc & _). now split.
    + intros [Hc Hf]. now apply Hok.
Qed.

(** X12: the table [load_data] returns, in either script, is a similarity
    matrix with at least one title, and its titles are in ascending order;
    so the select box built from its columns is never empty and is sorted. *)
Theorem load_data_well_formed (files : Files) (df : SimilarityFrame) :
  Recommender.load_data files = Ok df \/
  (exists data, App.load_data files = Ok (Some (df, data))) ->
  similarity_matrix df /\
  AppPage.movie_list df <> [] /\
  ScriptPage.movie_list df = AppPage.movie_list df /\
  Sorted (fun a b => String.leb a b = true) (AppPage.movie_list df).
Proof.
  intros H.
  assert (H' : Recommender.load_data files = Ok df).
  { destruct H as [H|[data H]]; [exact H|]. eapply app_load_data_Ok, H. }
  split; [eapply load_data_similarity_matrix, H'|].
  apply load_data_Ok in H'. destruct H' as (r & m & _ & _ & _ & Hc & ->).
  unfold AppPage.movie_list, ScriptPage.movie_list. cbn [Pandas.columns].
  split; [exact Hc|]. split; [reflexivity|].
  apply pivot_table_columns_sorted.
Qed.

Lemma load_data_well_formed_witness :
  (Recommender.load_data Samples.three_by_three = Ok Samples.abc_df \/
   (exists data, App.load_data Samples.three_by_three = Ok (Some (Samples.abc_df, data)))) /\
  similarity_matrix Samples.abc_df /\
  AppPage.movie_list Samples.abc_df <> [] /\
  ScriptPage.movie_list Samples.abc_df = AppPage.movie_list Samples.abc_df /\
  Sorted (fun a b => String.leb a b = true) (AppPage.movie_list Samples.abc_df).
Proof.
  assert (H : Recommender.load_data Samples.three_by_three = Ok Samples.abc_df \/
              (exists data, App.load_data Samples.three_by_three
                            = Ok (Some (Samples.abc_df, data))))
    by (left; exact Runs.load_data_three_by_three).
  split; [exact H|].
  exact (load_data_well_formed Samples.three_by_three Samples.abc_df H).
Defined.

Lemma app_load_data_data (files : Files) (df : SimilarityFrame)
      (data : list Pandas.DataRow) :
  App.load_data files = Ok (Some (df, data)) ->
  exists ratings movies,
    u_data files = Ok ratings /\ u_item files = Ok movies /\
    data = Pandas.merge ratings movies /\
    Pandas.columns df = Pandas.columns (Pandas.pivot_table data).
Proof.
  unfold App.load_data.
  destruct (u_data files) as [ratings|[]]; cbn [Py.bind]; try discriminate;
    destruct (u_item files) as [movies|[]]; cbn [Py.bind]; try discriminate.
  destruct (Sklearn.cosine_similarity _) as [K|[]]; cbn [Py.bind]; try discriminate.
  intros [= <- <-]. exists ratings, movies. repeat split.
Qed.

Lemma app_load_data_None (files : Files) :
  App.load_data files = Ok None <->
  Recommender.load_data files = Raise Py.FileNotFoundError.
Proof.
  pose proof (app_load_data_cases files) as H.
  destruct (Recommender.load_data files) as [df0|e0] eqn:E.
  - destruct H as [data H]. rewrite H. split; discriminate.
  - destruct e0; rewrite H; split; try discriminate; reflexivity.
Qed.

(** X13: the two [load_data] functions agree: the app returns the pair of a
    table and the merged frame exactly when the script returns that table,
    returns [(None, None)] exactly when the script raises
    [FileNotFoundError], and raises exactly the other exceptions the script
    raises. *)
Theorem load_data_app_vs_script (files : Files) :
  (forall df, Recommender.load_data files = Ok df <->
              exists data, App.load_data files = Ok (Some (df, data))) /\
  (App.load_data files = Ok None <->
   Recommender.load_data files = Raise Py.FileNotFoundError) /\
  (forall e, App.load_data files = Raise e <->
             Recommender.load_data files = Raise e /\ e <> Py.FileNotFoundError).
Proof.
  pose proof (app_load_data_cases files) as H.
  destruct (Recommender.load_data files) as [df0|e0] eqn:E.
  - destruct H as [data H]. split; [|split].
    + intros df. split.
      * intros [= <-]. eauto.
      * intros [data' H']. rewrite H in H'. now injection H' as <- _.
    + rewrite H. split; discriminate.
    + intros e. rewrite H. split; [discriminate|intros [? _]; discriminate].
  - split; [|split].
    + intros df. split; [discriminate|]. intros [data H'].
      destruct e0; rewrite H in H'; discriminate.
    + destruct e0; rewrite H; split; try discriminate; reflexivity.
    + intros e. destruct e0; rewrite H; split;
        try discriminate;
        try (intros [= <-]; split; [reflexivity|discriminate]);
        try (intros [[= <-] Hne]; congruence).
Qed.

(** X14: a missing file is the only way to [FileNotFoundError]: the script
    raises it, and the app returns [(None, None)], exactly when [u.data] is
    missing or [u.data] is read and [u.item] is missing. *)
Theorem load_data_missing_file (files : Files) :
  let missing :=
    u_data files = Raise Py.FileNotFoundError \/
    (exists ratings, u_data files = Ok ratings /\
                     u_item files = Raise Py.FileNotFoundError) in
  (Recommender.load_data files = Raise Py.FileNotFoundError <-> missing) /\
  (App.load_data files = Ok None <-> missing).
Proof.
  intros missing.
  assert (H : Recommender.load_data files = Raise Py.FileNotFoundError <-> missing).
  { unfold missing, Recommender.load_data.
    destruct (u_data files) as [ratings|e]; cbn [Py.bind].
    - destruct (u_item files) as [movies|e]; cbn [Py.bind].
      + destruct (Sklearn.cosine_similarity _) as [K|e] eqn:E; cbn [Py.bind].
        * split; [discriminate|]. intros [H|(r & _ & H)]; discriminate.
        * apply cosine_similarity_raises in E. subst.
          split; [discriminate|]. intros [H|(r & _ & H)]; discriminate.
      + split.
        * intros [= ->]. right. eauto.
        * intros [H|(r & _ & H)]; [discriminate|]. now injection H as ->.
    - split.
      + intros [= ->]. now left.
      + intros [H|(r & H & _)]; [now injection H as ->|discriminate]. }
  split; [exact H|].
  rewrite <- H. apply app_load_data_None.
Qed.

(** ** The pages *)

Section PageStats.

Import Pandas.
Local Open Scope string_scope.

Lemma pivot_column_row (data : list DataRow) (t : string) :
  In t (columns (pivot_table data)) ->
  exists d, In d data /\ title d = t /\ F.is_nan (rating d) = false.
Proof.
  intros Hin. apply pivot_table_columns in Hin. destruct Hin as (u & v & Hin).
  apply in_agged, group_mean_defined in Hin. destruct Hin as (x & Hx & Hn).
  unfold group_values in Hx. apply in_map_iff in Hx.
  destruct Hx as (d & <- & Hd). apply filter_In in Hd. destruct Hd as [Hd Hk].
  destruct (key_eqb_spec (u, t) (key_of d)) as [E|]; [|discriminate].
  injection E as -> ->. exists d. repeat split; assumption.
Qed.

Lemma truthy_nonempty (s : string) : s <> "" -> AppPage.truthy s = true.
Proof.
  intros H. unfold AppPage.truthy. now destruct (String.eqb_spec s "").
Qed.

Lemma filter_length_le (A : Type) (f : A -> bool) (l : list A) :
  List.length (filter f l) <= List.length l.
Proof.
  induction l as [|a l IH]; simpl; [lia|]. destruct (f a); simpl; lia.
Qed.

End PageStats.

(** X15: once the app has loaded its data, every non-empty title offered by
    the select box has a "Number of Ratings" metric, and that number is at
    least 1 and at most the sidebar's "Total Ratings". *)
Theorem rating_count_of_listed_movie
  (files : Files) (df : SimilarityFrame) (data : list Pandas.DataRow) (t : string) :
  App.load_data files = Ok (Some (df, data)) ->
  In t (AppPage.movie_list df) ->
  t <> ""%string ->
  exists c, AppPage.rating_count data t = Some c /\
            1 <= c <= AppPage.total_ratings (AppPage.dataset_info data).
Proof.
  intros Hl Hin Hne. apply app_load_data_data in Hl.
  destruct Hl as (ratings & movies & _ & _ & _ & Hc).
  unfold AppPage.movie_list in Hin. rewrite Hc in Hin.
  apply pivot_column_row in Hin. destruct Hin as (d & Hd & Ht & _).
  unfold AppPage.rating_count. rewrite (truthy_nonempty t Hne).
  assert (Hf : In d (AppPage.movie_stats data t)).
  { unfold AppPage.movie_stats. apply filter_In. split; [exact Hd|].
    now apply String.eqb_eq. }
  pose proof (filter_length_le _ (fun d => String.eqb (Pandas.title d) t) data) as Hle.
  fold (AppPage.movie_stats data t) in Hle.
  destruct (AppPage.movie_stats data t) as [|d0 rows] eqn:E; [destruct Hf|].
  eexists. split; [reflexivity|]. cbn [AppPage.dataset_info AppPage.total_ratings].
  simpl List.length in *. lia.
Qed.

Lemma rating_count_of_listed_movie_witness :
  exists data,
    App.load_data Samples.three_by_three = Ok (Some (Samples.abc_df, data)) /\
    In "A"%string (AppPage.movie_list Samples.abc_df) /\
    "A"%string <> ""%string /\
    exists c, AppPage.rating_count data "A"%string = Some c /\
              1 <= c <= AppPage.total_ratings (AppPage.dataset_info data).
Proof.
  eexists.
  assert (Hl := app_load_data_of_script _ _ _ Runs.load_data_three_by_three).
  assert (Hin : In "A"%string (AppPage.movie_list Samples.abc_df)) by (simpl; tauto).
  assert (Hne : "A"%string <> ""%string) by discriminate.
  split; [exact Hl|]. split; [exact Hin|]. split; [exact Hne|].
  exact (rating_count_of_listed_movie _ _ _ _ Hl Hin Hne).
Defined.

(** X16: the select box of the app never offers more titles than the
    sidebar's "Unique Movies" figure counts, every offered title is a title
    of the merged frame, and a title all of whose ratings are missing values
    is counted by the sidebar but not offered. *)
Theorem movie_list_within_unique_movies
  (files : Files) (df : SimilarityFrame) (data : list Pandas.DataRow) :
  App.load_data files = Ok (Some (df, data)) ->
  incl (AppPage.movie_list df) (map Pandas.title data) /\
  List.length (AppPage.movie_list df)
  <= AppPage.unique_movies (AppPage.dataset_info data) /\
  (forall t, In t (map Pandas.title data) ->
             (forall d, In d data -> Pandas.title d = t ->
                        F.is_nan (Pandas.rating d) = true) ->
             ~ In t (AppPage.movie_list df) /\
             List.length (AppPage.movie_list df)
             < AppPage.unique_movies (AppPage.dataset_info data)).
Proof.
  intros Hl. pose proof (app_load_data_Ok _ _ _ Hl) as Hs.
  apply load_data_similarity_matrix in Hs. destruct Hs as [Hax Hnd _ _].
  apply app_load_data_data in Hl. destruct Hl as (ratings & movies & _ & _ & _ & Hc).
  unfold AppPage.movie_list.
  cbn [AppPage.dataset_info AppPage.unique_movies]. unfold AppPage.nunique.
  assert (Hincl : incl (Pandas.columns df) (map Pandas.title data)).
  { intros t Hin. rewrite Hc in Hin. apply pivot_column_row in Hin.
    destruct Hin as (d & Hd & <- & _). now apply in_map. }
  assert (Hincl' : incl (Pandas.columns df) (nodup string_dec (map Pandas.title data))).
  { intros t Hin. apply nodup_In, Hincl, Hin. }
  split; [exact Hincl|]. split.
  - apply NoDup_incl_length; assumption.
  - intros t Ht Hnan.
    assert (Hout : ~ In t (Pandas.columns df)).
    { intros Hin. rewrite Hc in Hin. apply pivot_column_row in Hin.
      destruct Hin as (d & Hd & Hdt & Hn). rewrite (Hnan d Hd Hdt) in Hn. discriminate. }
    split; [exact Hout|].
    assert (Hl : List.length (t :: Pandas.columns df)
                 <= List.length (nodup string_dec (map Pandas.title data))).
    { apply NoDup_incl_length; [now constructor|].
      intros x [<-|Hx]; [now apply nodup_In|now apply Hincl']. }
    simpl in Hl. lia.
Qed.

Lemma movie_list_within_unique_movies_witness :
  let files := {| u_data := Ok [Samples.obs 1 1 5; Samples.obs 1 2 nan];
                  u_item := Ok Samples.abc |} in
  let df := {| Pandas.index := ["A"%string]; Pandas.columns := ["A"%string];
               Pandas.values := [[1%float]] |} in
  let data := Pandas.merge [Samples.obs 1 1 5; Samples.obs 1 2 nan] Samples.abc in
  App.load_data files = Ok (Some (df, data)) /\
  incl (AppPage.movie_list df) (map Pandas.title data) /\
  In "B"%string (map Pandas.title data) /\
  ~ In "B"%string (AppPage.movie_list df) /\
  List.length (AppPage.movie_list df)
  < AppPage.unique_movies (AppPage.dataset_info data).
Proof.
  intros files df data.
  assert (Hl : App.load_data files = Ok (Some (df, data))) by (vm_compute; reflexivity).
  assert (Hb : In "B"%string (map Pandas.title data)) by (simpl; tauto).
  assert (Hnan : forall d, In d data -> Pandas.title d = "B"%string ->
                           F.is_nan (Pandas.rating d) = true).
  { intros d [<-|[<-|[]]]; [discriminate|reflexivity]. }
  destruct (movie_list_within_unique_movies files df data Hl) as (H1 & _ & H3).
  split; [exact Hl|]. split; [exact H1|]. split; [exact Hb|].
  exact (H3 "B"%string Hb Hnan).
Defined.

(** X17: on a non-empty list of titles computing the select box's default
    does not fail, the lookup [movie_list.index] being guarded by the
    membership test, and the option shown first is an element of the list:
    "Toy Story (1995)" when that title is listed, the first title
    otherwise. *)
Theorem default_selection_shown (l : list string) :
  l <> [] ->
  exists t,
    AppPage.default_selection l = Ok (Some t) /\
    In t l /\
    (In "Toy Story (1995)"%string l -> t = "Toy Story (1995)"%string) /\
    (~ In "Toy Story (1995)"%string l -> hd_error l = Some t).
Proof.
  intros Hne. unfold AppPage.default_selection, AppPage.default_index, AppPage.list_index.
  destruct (Pandas.contains "Toy Story (1995)"%string l) eqn:E.
  - pose proof E as Hin. apply contains_In in Hin.
    unfold Pandas.contains in E.
    destruct (Pandas.index_of "Toy Story (1995)"%string l) as [i|] eqn:Ei; [|discriminate].
    apply index_of_Some in Ei. cbn [Py.bind]. rewrite Ei.
    exists "Toy Story (1995)"%string. repeat split; try assumption; try reflexivity.
    intros Hn. contradiction.
  - assert (Hn : ~ In "Toy Story (1995)"%string l).
    { intros Hin. apply contains_In in Hin. congruence. }
    destruct l as [|t l]; [contradiction|]. cbn [Py.bind nth_error].
    exists t. repeat split; try reflexivity; [now left|]. intros Hin. contradiction.
Qed.

Lemma default_selection_shown_witness :
  ["A"; "Toy Story (1995)"; "C"]%string <> [] /\
  exists t,
    AppPage.default_selection ["A"; "Toy Story (1995)"; "C"]%string = Ok (Some t) /\
    In t ["A"; "Toy Story (1995)"; "C"]%string /\
    (In "Toy Story (1995)"%string ["A"; "Toy Story (1995)"; "C"]%string ->
     t = "Toy Story (1995)"%string) /\
    (~ In "Toy Story (1995)"%string ["A"; "Toy Story (1995)"; "C"]%string ->
     hd_error ["A"; "Toy Story (1995)"; "C"]%string = Some t).
Proof.
  assert (H : ["A"; "Toy Story (1995)"; "C"]%string <> []) by discriminate.
  split; [exact H|].
  exact (default_selection_shown ["A"; "Toy Story (1995)"; "C"]%string H).
Defined.

Section MatchPercentage.

Lemma SFmul_not_nan (x : spec_float) (s : bool) (m : positive) (e : Z) :
  x <> S754_nan -> SF64mul x (S754_finite s m e) <> S754_nan.
Proof.
  destruct x as [sx|sx| |sx mx ex]; intros H; try discriminate; [congruence|].
  unfold SF64mul, SFmul.
  destruct (Rounding.binary_round_aux_sign (xorb sx s) (Zpos (mx * m)) (ex + e)
              loc_Exact ltac:(lia)) as [E|[(m' & e' & E)|E]];
    rewrite E; discriminate.
Qed.

Lemma times_100_not_nan (score : float) :
  F.is_nan score = false -> F.is_nan (score * 100) = false.
Proof.
  rewrite !FloatFacts.not_nan_Prim2SF, mul_spec. intros H.
  change (Prim2SF 100) with (S754_finite false 7036874417766400 (-46)).
  now apply SFmul_not_nan.
Qed.

Lemma similarity_percentage_le (score : float) :
  F.is_nan score = false ->
  (AppPage.similarity_percentage score <=? 99)%float = true.
Proof.
  intros H. apply times_100_not_nan in H. unfold AppPage.similarity_percentage.
  cbv zeta. destruct (99 <? score * 100)%float eqn:E; [reflexivity|].
  apply FloatOrder.leb_of_not_ltb; [reflexivity|exact H|exact E].
Qed.

Lemma similarity_percentage_nan (score : float) :
  F.is_nan score = true ->
  F.is_nan (AppPage.similarity_percentage score) = true.
Proof.
  intros H.
  assert (Hp : F.is_nan (score * 100) = true).
  { apply FloatFacts.is_nan_Prim2SF. rewrite mul_spec.
    apply FloatFacts.is_nan_Prim2SF in H. now rewrite H. }
  unfold AppPage.similarity_percentage. cbv zeta.
  destruct (99 <? score * 100)%float eqn:E; [|exact Hp].
  apply FloatOrder.ltb_not_nan in E. destruct E as [_ E]. congruence.
Qed.

End MatchPercentage.

(** X18: the match percentage [min(score * 100, 99)] of a score that is a
    number is at most 99, and is the product itself whenever the product is
    at most 99; of a NaN score it is NaN, which [min] does not cap. *)
Theorem similarity_percentage_capped (score : float) :
  (F.is_nan score = false ->
   (AppPage.similarity_percentage score <=? 99)%float = true) /\
  ((score * 100 <=? 99)%float = true ->
   AppPage.similarity_percentage score = (score * 100)%float) /\
  (F.is_nan score = true ->
   F.is_nan (AppPage.similarity_percentage score) = true).
Proof.
  split; [apply similarity_percentage_le|]. split; [|apply similarity_percentage_nan].
  intros H. unfold AppPage.similarity_percentage. cbv zeta.
  destruct (99 <? score * 100)%float eqn:E; [|reflexivity].
  apply FloatOrder.ltb_not_leb in E. congruence.
Qed.

Lemma similarity_percentage_capped_witness :
  F.is_nan 0.5%float = false /\
  (0.5 * 100 <=? 99)%float = true /\
  (AppPage.similarity_percentage 0.5 <=? 99)%float = true /\
  AppPage.similarity_percentage 0.5 = (0.5 * 100)%float.
Proof.
  assert (Hn : F.is_nan 0.5%float = false) by reflexivity.
  assert (Hp : (0.5 * 100 <=? 99)%float = true) by reflexivity.
  destruct (similarity_percentage_capped 0.5%float) as (H1 & H2 & _).
  split; [exact Hn|]. split; [exact Hp|]. split; [exact (H1 Hn)|exact (H2 Hp)].
Defined.

Section PageFacts.

Variable srt : Sorter.
Variable df : SimilarityFrame.
Hypothesis Hsm : similarity_matrix df.

(** For a title of the matrix and a positive count both functions return,
    the script the labels of the app's Series, of [min n (k - 1)] entries. *)
Lemma recommend_movie_series (title : string) (n : Z) :
  In title (Pandas.columns df) -> (1 <= n)%Z ->
  exists s,
    App.recommend_movie (run srt) df title n = Ok (App.RSeries s) /\
    Recommender.recommend_movie (run srt) df title n = Ok (map fst s) /\
    List.length s = Nat.min (Z.to_nat n) (List.length (Pandas.columns df) - 1).
Proof.
  intros Hi Hn.
  destruct (recommend_movie_present (run srt) df title n Hi) as (col & Hg & Hr & Ha).
  exists (Pandas.iloc 1 (n + 1) (run srt false col)).
  split; [exact Ha|]. split; [exact Hr|].
  unfold Pandas.iloc. rewrite slice_from_1_length by lia.
  rewrite <- (Permutation_length (run_perm srt col)).
  rewrite (getitem_length df title col Hsm Hg).
  destruct Hsm as [Hax _ _ _]. rewrite Hax. lia.
Qed.

Lemma cards_length (s : Pandas.Series string) :
  List.length (AppPage.cards s) = List.length s.
Proof.
  unfold AppPage.cards. rewrite length_map, length_combine, length_seq. lia.
Qed.

Lemma cards_movies (s : Pandas.Series string) :
  map AppPage.card_movie (AppPage.cards s) = map fst s.
Proof.
  unfold AppPage.cards. rewrite map_map. cbn [AppPage.card_movie].
  transitivity (map fst (map snd (combine (seq 0 (List.length s)) s))).
  - now rewrite map_map.
  - f_equal. apply map_snd_combine. rewrite length_seq. lia.
Qed.

Lemma cards_positions (s : Pandas.Series string) :
  map AppPage.card_badge (AppPage.cards s) = seq 1 (List.length s) /\
  map AppPage.card_column (AppPage.cards s)
  = map (fun i => Nat.modulo i 2) (seq 0 (List.length s)).
Proof.
  assert (E : map fst (combine (seq 0 (List.length s)) s) = seq 0 (List.length s)).
  { apply map_fst_combine. rewrite length_seq. lia. }
  unfold AppPage.cards. rewrite !map_map.
  cbn [AppPage.card_badge AppPage.card_column]. split.
  - transitivity (map S (map fst (combine (seq 0 (List.length s)) s))).
    + rewrite map_map. apply map_ext. intros ip. apply Nat.add_1_r.
    + rewrite E. apply seq_shift.
  - transitivity (map (fun i => Nat.modulo i 2)
                      (map fst (combine (seq 0 (List.length s)) s))).
    + now rewrite map_map.
    + now rewrite E.
Qed.

Lemma cards_matches (s : Pandas.Series string) :
  Forall (fun c => F.is_nan (AppPage.card_match c) = true \/
                   (AppPage.card_match c <=? 99)%float = true)
         (AppPage.cards s).
Proof.
  unfold AppPage.cards. apply Forall_map, Forall_forall. intros ip _.
  cbn [AppPage.card_match]. destruct (F.is_nan (snd (snd ip))) eqn:E.
  - left. now apply similarity_percentage_nan.
  - right. now apply similarity_percentage_le.
Qed.

Lemma firstn_seq (n start len : nat) :
  firstn n (seq start len) = seq start (Nat.min n len).
Proof.
  revert start len. induction n as [|n IH]; intros start [|len]; simpl;
    try reflexivity. f_equal. apply IH.
Qed.

Lemma firstn_combine_fst (A B : Type) (l : list A) (l' : list B) :
  map fst (combine l l') = firstn (List.length l') l.
Proof.
  revert l'. induction l as [|a l IH]; intros [|b l']; simpl; try reflexivity.
  f_equal. apply IH.
Qed.

End PageFacts.

(** X19: for a title of its select box the script's button handler shows
    every title [recommend_movie] returns, in order, one per column from the
    first column on: the five columns are never too few, since at most five
    titles come back. *)
Theorem script_page_shows_every_recommendation
  (srt : Sorter) (df : SimilarityFrame) (selected_movie : string) :
  similarity_matrix df ->
  In selected_movie (ScriptPage.movie_list df) ->
  exists recommendations shown,
    Recommender.recommend_movie (run srt) df selected_movie 5 = Ok recommendations /\
    ScriptPage.get_recommendations (run srt) df selected_movie = Ok shown /\
    map snd shown = recommendations /\
    map fst shown = seq 0 (List.length recommendations) /\
    List.length recommendations
    = Nat.min 5 (List.length (ScriptPage.movie_list df) - 1).
Proof.
  intros Hsm Hi. unfold ScriptPage.movie_list in *.
  destruct (recommend_movie_series srt df Hsm selected_movie 5 Hi ltac:(lia))
    as (s & _ & Hr & Hlen).
  exists (map fst s), (combine (seq 0 5) (map fst s)).
  assert (Hle : List.length (map fst s) <= 5) by (rewrite length_map; lia).
  split; [exact Hr|]. split; [|split; [|split]].
  - unfold ScriptPage.get_recommendations. rewrite Hr. reflexivity.
  - apply map_snd_combine. now rewrite length_seq.
  - rewrite firstn_combine_fst, firstn_seq. f_equal. lia.
  - rewrite length_map. exact Hlen.
Qed.

Lemma script_page_shows_every_recommendation_witness :
  similarity_matrix Samples.abc_df /\
  In "A"%string (ScriptPage.movie_list Samples.abc_df) /\
  exists recommendations shown,
    Recommender.recommend_movie (run pandas_sorter) Samples.abc_df "A"%string 5
    = Ok recommendations /\
    ScriptPage.get_recommendations (run pandas_sorter) Samples.abc_df "A"%string
    = Ok shown /\
    map snd shown = recommendations /\
    map fst shown = seq 0 (List.length recommendations) /\
    List.length recommendations
    = Nat.min 5 (List.length (ScriptPage.movie_list Samples.abc_df) - 1).
Proof.
  assert (Hi : In "A"%string (ScriptPage.movie_list Samples.abc_df)) by (simpl; tauto).
  split; [exact abc_similarity_matrix|]. split; [exact Hi|].
  exact (script_page_shows_every_recommendation pandas_sorter Samples.abc_df
           "A"%string abc_similarity_matrix Hi).
Defined.

(** X20: with a count the slider can give, the app's button handler never
    ends in an exception of [recommend_movie]: an empty selection draws the
    "select a movie first" warning, a title that is not a column ends in the
    [AttributeError] of [[].empty], a title of a one-title matrix draws the
    "no recommendations" error, and a title of a larger matrix draws a grid
    of [min n (k - 1)] cards. *)
Theorem app_page_outcome
  (srt : Sorter) (df : SimilarityFrame) (selected_movie : string) (n : Z) :
  similarity_matrix df ->
  slider_value n ->
  let k := List.length (AppPage.movie_list df) in
  let out := AppPage.get_recommendations (run srt) df selected_movie n in
  (forall e, out <> AppPage.Raised e) /\
  (selected_movie = ""%string -> out = AppPage.Drawn AppPage.SelectFirst) /\
  (selected_movie <> ""%string -> ~ In selected_movie (AppPage.movie_list df) ->
   out = AppPage.AttributeError) /\
  (selected_movie <> ""%string -> In selected_movie (AppPage.movie_list df) ->
   k = 1 -> out = AppPage.Drawn AppPage.NoRecommendations) /\
  (selected_movie <> ""%string -> In selected_movie (AppPage.movie_list df) ->
   2 <= k ->
   exists grid, out = AppPage.Drawn (AppPage.Recommended selected_movie grid) /\
                List.length grid = Nat.min (Z.to_nat n) (k - 1)).
Proof.
  intros Hsm [Hn _] k out. unfold out, k, AppPage.get_recommendations, AppPage.movie_list.
  destruct (String.eqb_spec selected_movie ""%string) as [->|Hne].
  - cbn [AppPage.truthy String.eqb negb].
    split; [discriminate|]. split; [reflexivity|].
    split; [|split]; intros H; now contradiction H.
  - rewrite (truthy_nonempty selected_movie Hne).
    destruct (in_dec string_dec selected_movie (Pandas.columns df)) as [Hi|Hi].
    + destruct (recommend_movie_series srt df Hsm selected_movie n Hi ltac:(lia))
        as (s & Ha & _ & Hlen).
      rewrite Ha. split; [destruct s; discriminate|].
      split; [intros; contradiction|]. split; [intros; contradiction|]. split.
      * intros _ _ Hk. rewrite Hk in Hlen. destruct s; [reflexivity|simpl in Hlen; lia].
      * intros _ _ Hk. destruct s as [|p s]; [simpl in Hlen; lia|].
        eexists. split; [reflexivity|]. now rewrite cards_length.
    + assert (Ha : App.recommend_movie (run srt) df selected_movie n
                   = Ok (App.RList [])).
      { unfold App.recommend_movie.
        destruct (Pandas.contains selected_movie (Pandas.columns df)) eqn:E;
          [|reflexivity]. now apply contains_In in E. }
      rewrite Ha. split; [discriminate|]. split; [intros; contradiction|].
      split; [reflexivity|]. split; intros; contradiction.
Qed.

Lemma app_page_outcome_witness :
  similarity_matrix Samples.abc_df /\
  slider_value 5 /\
  exists grid,
    AppPage.get_recommendations (run pandas_sorter) Samples.abc_df "A"%string 5
    = AppPage.Drawn (AppPage.Recommended "A"%string grid) /\
    List.length grid = 2.
Proof.
  assert (Hs : slider_value 5) by (unfold slider_value; lia).
  assert (Hne : "A"%string <> ""%string) by discriminate.
  assert (Hi : In "A"%string (AppPage.movie_list Samples.abc_df)) by (simpl; tauto).
  assert (Hk : 2 <= List.length (AppPage.movie_list Samples.abc_df)) by (simpl; lia).
  split; [exact abc_similarity_matrix|]. split; [exact Hs|].
  destruct (app_page_outcome pandas_sorter Samples.abc_df "A"%string 5
              abc_similarity_matrix Hs) as (_ & _ & _ & _ & H).
  exact (H Hne Hi Hk).
Defined.

(** X21: the grid the app draws for a title of the matrix follows the list
    the script's [recommend_movie] returns for the same count: card by card
    the same titles in the same order, with badges 1, 2, ..., alternating
    between the two columns starting with the left one, each match
    percentage being NaN or at most 99. *)
Theorem app_page_grid
  (srt : Sorter) (df : SimilarityFrame) (selected_movie : string) (n : Z)
  (grid : list AppPage.Card) :
  similarity_matrix df ->
  (1 <= n)%Z ->
  AppPage.get_recommendations (run srt) df selected_movie n
  = AppPage.Drawn (AppPage.Recommended selected_movie grid) ->
  Recommender.recommend_movie (run srt) df selected_movie n
  = Ok (map AppPage.card_movie grid) /\
  map AppPage.card_badge grid = seq 1 (List.length grid) /\
  map AppPage.card_column grid
  = map (fun i => Nat.modulo i 2) (seq 0 (List.length grid)) /\
  Forall (fun c => F.is_nan (AppPage.card_match c) = true \/
                   (AppPage.card_match c <=? 99)%float = true) grid.
Proof.
  intros Hsm Hn. unfold AppPage.get_recommendations.
  destruct (AppPage.truthy selected_movie); [|discriminate].
  destruct (in_dec string_dec selected_movie (Pandas.columns df)) as [Hi|Hi].
  - destruct (recommend_movie_series srt df Hsm selected_movie n Hi Hn)
      as (s & Ha & Hr & _).
    rewrite Ha. destruct s as [|p s]; [discriminate|]. intros [= <-].
    rewrite cards_movies, cards_length. split; [exact Hr|].
    split; [apply cards_positions|]. split; [apply cards_positions|].
    apply cards_matches.
  - assert (Ha : App.recommend_movie (run srt) df selected_movie n
                 = Ok (App.RList [])).
    { unfold App.recommend_movie.
      destruct (Pandas.contains selected_movie (Pandas.columns df)) eqn:E;
        [|reflexivity]. now apply contains_In in E. }
    rewrite Ha. discriminate.
Qed.

Lemma app_page_grid_witness :
  let grid :=
    AppPage.cards [("B"%string, 0x1.8fce095e0c6d5p-1%float); ("C"%string, 0%float)] in
  similarity_matrix Samples.abc_df /\
  (1 <= 5)%Z /\
  AppPage.get_recommendations (run pandas_sorter) Samples.abc_df "A"%string 5
  = AppPage.Drawn (AppPage.Recommended "A"%string grid) /\
  Recommender.recommend_movie (run pandas_sorter) Samples.abc_df "A"%string 5
  = Ok (map AppPage.card_movie grid) /\
  map AppPage.card_badge grid = seq 1 (List.length grid) /\
  map AppPage.card_column grid
  = map (fun i => Nat.modulo i 2) (seq 0 (List.length grid)) /\
  Forall (fun c => F.is_nan (AppPage.card_match c) = true \/
                   (AppPage.card_match c <=? 99)%float = true) grid.
Proof.
  intros grid.
  assert (Hn : (1 <= 5)%Z) by lia.
  assert (H : AppPage.get_recommendations (run pandas_sorter) Samples.abc_df "A"%string 5
              = AppPage.Drawn (AppPage.Recommended "A"%string grid))
    by (vm_compute; reflexivity).
  split; [exact abc_similarity_matrix|]. split; [exact Hn|]. split; [exact H|].
  exact (app_page_grid pandas_sorter Samples.abc_df "A"%string 5 grid
           abc_similarity_matrix Hn H).
Defined.
